(** * Logica: query execution and compile coordination ([common/logica_lib.py])

    A shallow embedding of [common/logica_lib.py] and the properties of the
    specification that concern it.

    Python is embedded as follows.
    - A call either returns a value, raises an exception, or ends the process
      through [sys.exit] ([Outcome]).
    - Everything the module does to the outside (child processes, database
      connections, the file system, the diagnostics printed by [ShowMessage])
      goes through one state monad [M]: the state holds the outside world, the
      process environment and the trace of the external calls made so far, in
      order.  The behaviour of the outside is a parameter ([External]).
    - The compiler stages ([parse.ParseFile], [universe.LogicaProgram],
      [FormattedPredicateSql]) are collaborators reached through [External].
    - [import] statements inside function bodies are taken to succeed, and
      [assert] statements are enabled (no [-O]). *)

From Stdlib Require Import ZArith List Ascii String.
From stdpp Require Import base option list strings gmap pretty.

(** ** The statement splitter ([parse.SplitRaw]) *)

Module Splitter.

(** Modelled from the spec: the lexical state of [parse.SplitRaw]
    ([parser_py/parse.py] is missing).  The spec asks for a splitter that is
    "aware of quoting/comment syntax"; the syntax taken here is SQL's: string
    literals in single or double quotes, line comments from two dashes to the
    end of the line, block comments between slash-star and star-slash.
    [Dash] and [Slash] are code states in which the first character of a
    possible comment opener has been read; [BlockStar] is a block comment in
    which a star has just been read. *)
Inductive Lex : Type :=
| Code | Dash | Slash
| LineComment | BlockComment | BlockStar
| SQuote | DQuote.

Definition newline : ascii := "010"%char.
Definition dquote : ascii := "034"%char.

(** Modelled from the spec: one step of the scanner of [parse.SplitRaw]
    (missing), following the quoting and comment syntax above. *)
Definition step (q : Lex) (c : ascii) : Lex :=
  let from_code :=
    if Ascii.eqb c "'" then SQuote
    else if Ascii.eqb c dquote then DQuote
    else if Ascii.eqb c "-" then Dash
    else if Ascii.eqb c "/" then Slash
    else Code in
  match q with
  | Code => from_code
  | Dash => if Ascii.eqb c "-" then LineComment else from_code
  | Slash => if Ascii.eqb c "*" then BlockComment else from_code
  | LineComment => if Ascii.eqb c newline then Code else LineComment
  | BlockComment => if Ascii.eqb c "*" then BlockStar else BlockComment
  | BlockStar =>
      if Ascii.eqb c "/" then Code
      else if Ascii.eqb c "*" then BlockStar else BlockComment
  | SQuote => if Ascii.eqb c "'" then Code else SQuote
  | DQuote => if Ascii.eqb c dquote then Code else DQuote
  end.

(** Outside every string literal and comment. *)
Definition in_code (q : Lex) : bool :=
  match q with
  | Code | Dash | Slash => true
  | _ => false
  end.

(** Modelled from the spec: a semicolon is a delimiter exactly when it is
    read outside string literals and comments ("semicolons inside string
    literals and comments" are "non-delimiters"). *)
Definition delimiter (q : Lex) (c : ascii) : bool :=
  in_code q && Ascii.eqb c ";".

(** The state of the scanner after reading [s] from state [q]. *)
Fixpoint run (q : Lex) (s : string) : Lex :=
  match s with
  | EmptyString => q
  | String c rest => run (step q c) rest
  end.

(** [s], read from state [q], holds no delimiter. *)
Fixpoint no_delimiter (q : Lex) (s : string) : bool :=
  match s with
  | EmptyString => true
  | String c rest => negb (delimiter q c) && no_delimiter (step q c) rest
  end.

(** Modelled from the spec: the segments of [s] read from state [q]; a new
    segment starts after every delimiter, and the delimiter itself belongs to
    no segment. *)
Fixpoint split_from (q : Lex) (s : string) : list string :=
  match s with
  | EmptyString => [EmptyString]
  | String c rest =>
      if delimiter q c then EmptyString :: split_from (step q c) rest
      else match split_from (step q c) rest with
           | seg :: segs => String c seg :: segs
           | [] => [String c EmptyString]
           end
  end.

(** Modelled from the spec: [parse.SplitRaw(s, ';')] (missing): "splits a
    multi-statement SQL script into individually executable statements, aware
    of quoting/comment syntax". *)
Definition SplitRaw (s : string) : list string := split_from Code s.

(** A statement as the round-trip property takes it: free of delimiting
    semicolons and lexically closed (it ends outside literals and
    comments, so that a semicolon put after it is a delimiter). *)
Definition statement (s : string) : bool :=
  no_delimiter Code s && in_code (run Code s).

(** The script in which every statement of [stmts] is followed by a
    semicolon and [tail] follows the last semicolon. *)
Definition terminated_script (stmts : list string) (tail : string) : string :=
  foldr (λ s acc, s +:+ String ";" acc) tail stmts.

End Splitter.

(** ** Python values, exceptions, outcomes *)

(** The scalar values that occur as settings and as table cells. *)
Inductive PyVal : Type :=
| VNone
| VBool (b : bool)
| VInt (z : Z)
| VStr (s : string).

(** [str(v)], as the [%s] conversion applies it. *)
Definition py_str (v : PyVal) : string :=
  match v with
  | VNone => "None"
  | VBool true => "True"
  | VBool false => "False"
  | VInt z => pretty z
  | VStr s => s
  end.

(** Python truthiness. *)
Definition truthy (v : PyVal) : bool :=
  match v with
  | VNone => false
  | VBool b => b
  | VInt z => negb (Z.eqb z 0)
  | VStr s => negb (String.eqb s EmptyString)
  end.

(** The exception classes the module raises or catches.  The four
    compile-stage failures carry their diagnostic; [ExternalError] stands
    for whatever the transport of an external call raises. *)
Inductive PyExn : Type :=
| ParsingException (message : string)
| RuleCompileException (message : string)
| FunctorError (message : string)
| TypeErrorCaughtException (message : string)
| AssertionError (message : string)
| Exception (message : string)
| IndexError
| ExternalError (description : string).

(** The compile-stage failures of the specification. *)
Definition compile_failure (e : PyExn) : bool :=
  match e with
  | ParsingException _ | RuleCompileException _
  | FunctorError _ | TypeErrorCaughtException _ => true
  | _ => false
  end.

(** How a call ends: [return], an exception, or [sys.exit(status)]. *)
Inductive Outcome (A : Type) : Type :=
| Returned (a : A)
| Raised (e : PyExn)
| Exited (status : Z).
Arguments Returned {A} a.
Arguments Raised {A} e.
Arguments Exited {A} status.

(** ** Objects of the outside *)

(** Connections and child processes are object handles. *)
Definition Conn : Type := nat.
Definition Proc : Type := nat.

(** A DB-API cursor after [execute]: [description] pairs each column name
    ([d[0]]) with the rest of its descriptor. *)
Record Cursor : Type := {
  description : list (PyVal * list PyVal);
  fetchall : list (list PyVal)
}.

(** A pandas data frame. *)
Record Frame : Type := {
  columns : list PyVal;
  rows : list (list PyVal)
}.

(** [pandas.DataFrame(rows, columns=columns)] *)
Definition DataFrame (rows : list (list PyVal)) (columns : list PyVal) : Frame :=
  {| columns := columns; rows := rows |}.

(** [df.applymap(f)] *)
Definition applymap (f : PyVal → PyVal) (df : Frame) : Frame :=
  {| columns := columns df; rows := map (map f) (rows df) |}.

(** The external calls, as the trace records them. *)
Inductive Event : Type :=
| EvOpen (filename : string)
| EvParseFile (program_text : string) (import_root : option string)
| EvLogicaProgram
| EvFormattedPredicateSql (predicate : string)
| EvShowMessage (e : PyExn)
| EvPopen (argv : list string)
| EvCommunicate (p : Proc) (input : string)
| EvPsycopgConnect (connection_str : string)
| EvPostgresExecute (sql : string) (connection : Conn)
| EvRunSQL (sql : string)
| EvDuckdbConnect
| EvConnectClingo (connection : Conn)
| EvDuckdbSql (connection : Conn) (sql : string)
| EvSqliteConnect
| EvQuery (connection : Conn) (sql : string)
| EvCursorExecute (connection : Conn) (sql : string)
| EvExecuteScript (connection : Conn) (script : string)
| EvReadSql (sql : string) (connection : Conn).

(** The behaviour of the outside, over a world of type [Σ]: each call takes
    the world to an outcome and a new world.  [Rules], [Flags] and [Program]
    are the parsed rules, the user flags and the program object of the
    compiler. *)
Record External (Σ Rules Flags Program : Type) : Type := {
  ext_read : string → Σ → Outcome string * Σ;
  ext_ParseFile : string → option string → Σ → Outcome Rules * Σ;
  ext_LogicaProgram : Rules → option Flags → Σ → Outcome Program * Σ;
  ext_annotations : Program → gmap string (gmap string (gmap string PyVal));
  ext_FormattedPredicateSql : Program → string → Σ → Outcome string * Σ;
  ext_Popen : list string → Σ → Outcome Proc * Σ;
  ext_communicate : Proc → string → Σ → Outcome string * Σ;
  ext_psycopg2_connect : string → Σ → Outcome Conn * Σ;
  ext_PostgresExecute : string → Conn → Σ → Outcome Cursor * Σ;
  ext_DigestPsqlType : PyVal → PyVal;
  ext_ArtisticTable : list PyVal → list (list PyVal) → string;
  ext_RunSQL : string → Σ → Outcome string * Σ;
  ext_duckdb_connect : Σ → Outcome Conn * Σ;
  ext_ConnectClingo : Conn → Σ → Outcome unit * Σ;
  ext_duckdb_sql_df : Conn → string → Σ → Outcome Frame * Σ;
  ext_DataframeAsArtisticTable : Frame → string;
  ext_SqliteConnect : Σ → Outcome Conn * Σ;
  ext_query_to_dataframe : Conn → string → Σ → Outcome Frame * Σ;
  ext_cursor_execute : Conn → string → Σ → Outcome Cursor * Σ;
  ext_executescript : Conn → string → Σ → Outcome unit * Σ;
  ext_read_sql : string → Conn → Σ → Outcome Frame * Σ
}.
Arguments ext_read {Σ Rules Flags Program} _.
Arguments ext_ParseFile {Σ Rules Flags Program} _.
Arguments ext_LogicaProgram {Σ Rules Flags Program} _.
Arguments ext_annotations {Σ Rules Flags Program} _.
Arguments ext_FormattedPredicateSql {Σ Rules Flags Program} _.
Arguments ext_Popen {Σ Rules Flags Program} _.
Arguments ext_communicate {Σ Rules Flags Program} _.
Arguments ext_psycopg2_connect {Σ Rules Flags Program} _.
Arguments ext_PostgresExecute {Σ Rules Flags Program} _.
Arguments ext_DigestPsqlType {Σ Rules Flags Program} _.
Arguments ext_ArtisticTable {Σ Rules Flags Program} _.
Arguments ext_RunSQL {Σ Rules Flags Program} _.
Arguments ext_duckdb_connect {Σ Rules Flags Program} _.
Arguments ext_ConnectClingo {Σ Rules Flags Program} _.
Arguments ext_duckdb_sql_df {Σ Rules Flags Program} _.
Arguments ext_DataframeAsArtisticTable {Σ Rules Flags Program} _.
Arguments ext_SqliteConnect {Σ Rules Flags Program} _.
Arguments ext_query_to_dataframe {Σ Rules Flags Program} _.
Arguments ext_cursor_execute {Σ Rules Flags Program} _.
Arguments ext_executescript {Σ Rules Flags Program} _.
Arguments ext_read_sql {Σ Rules Flags Program} _.

(** ** The monad *)

(** The state a call runs in. *)
Record State (Σ : Type) : Type := {
  world : Σ;
  environ : gmap string string;
  trace : list Event
}.
Arguments world {Σ} _.
Arguments environ {Σ} _.
Arguments trace {Σ} _.

Definition M (Σ A : Type) : Type := State Σ → Outcome A * State Σ.

#[global] Instance M_ret {Σ} : MRet (M Σ) := λ A a s, (Returned a, s).

#[global] Instance M_bind {Σ} : MBind (M Σ) := λ A B f m s,
  match m s with
  | (Returned a, s') => f a s'
  | (Raised e, s') => (Raised e, s')
  | (Exited status, s') => (Exited status, s')
  end.

#[global] Instance M_fmap {Σ} : FMap (M Σ) := λ A B f m,
  a ← m; mret (f a).

(** [raise e] and [assert False, message] *)
Definition raise {Σ A} (e : PyExn) : M Σ A := λ s, (Raised e, s).

(** [sys.exit(status)] *)
Definition sys_exit {Σ A} (status : Z) : M Σ A := λ s, (Exited status, s).

(** [try: body except ...: handler]: [handler e] is [None] when no
    [except] clause matches [e]. *)
Definition try_except {Σ A} (body : M Σ A)
    (handler : PyExn → option (M Σ A)) : M Σ A := λ s,
  match body s with
  | (Raised e, s') =>
      match handler e with
      | Some h => h s'
      | None => (Raised e, s')
      end
  | r => r
  end.

(** An external call: recorded in the trace, answered by the outside. *)
Definition extern {Σ A} (ev : Event) (h : Σ → Outcome A * Σ) : M Σ A := λ s,
  let '(r, w) := h (world s) in
  (r, {| world := w; environ := environ s; trace := trace s ++ [ev] |}).

(** [os.environ.get(name)] *)
Definition os_environ_get {Σ} (name : string) : M Σ (option string) := λ s,
  (Returned (environ s !! name), s).

(** [exception.ShowMessage()]: prints the diagnostic of [e]. *)
Definition ShowMessage {Σ} (e : PyExn) : M Σ unit :=
  extern (EvShowMessage e) (λ w, (Returned tt, w)).

(** The truthiness of an optional string: [Some v] when the value is
    neither [None] nor the empty string. *)
Definition truthy_string (o : option string) : option string :=
  match o with
  | Some v => if String.eqb v EmptyString then None else Some v
  | None => None
  end.

(** [';\n'] *)
Definition semicolon_newline : string :=
  String ";" (String Splitter.newline EmptyString).

(** Modelled from the spec: [annotations.Engine()] ([compiler/universe.py]
    is missing): "reads the program's engine annotation (defaulting to the
    columnar-service engine when absent)".  The annotations map an annotation
    name to its values, each with its settings block; the engine is the value
    of [@Engine], and ["bigquery"] when there is none.  The spec does not say
    what happens with several [@Engine] values; the first key is taken, and
    the call raises nothing. *)
Definition Engine (annotations : gmap string (gmap string (gmap string PyVal)))
    : string :=
  match map_to_list (default ∅ (annotations !! "@Engine")) with
  | [] => "bigquery"
  | (engine, _) :: _ => engine
  end.

(** ** The functions of [logica_lib.py] *)

Section Library.

Context {Σ Rules Flags Program : Type}.
Context (ext : External Σ Rules Flags Program).

#[local] Abbreviation Settings := (gmap string PyVal).

(** [ParseOrExit(filename, import_root=None)] *)
Definition ParseOrExit (filename : string) (import_root : option string)
    : M Σ Rules :=
  program_text ← extern (EvOpen filename) (ext_read ext filename);
  try_except
    (extern (EvParseFile program_text import_root)
            (ext_ParseFile ext program_text import_root))
    (λ e, match e with
          | ParsingException _ => Some (ShowMessage e;; sys_exit 1)
          | _ => None
          end).

(** [GetProgramOrExit(filename, user_flags=None, import_root=None)] *)
Definition GetProgramOrExit (filename : string) (user_flags : option Flags)
    (import_root : option string) : M Σ Program :=
  parsed_rules ← ParseOrExit filename import_root;
  try_except
    (extern EvLogicaProgram (ext_LogicaProgram ext parsed_rules user_flags))
    (λ e, match e with
          | RuleCompileException _ => Some (ShowMessage e;; sys_exit 1)
          | FunctorError _ => Some (ShowMessage e;; sys_exit 1)
          | _ => None
          end).

(** [p.communicate(sql.encode())] followed by [o.decode()] *)
Definition communicate (p : Proc) (sql : string) : M Σ string :=
  extern (EvCommunicate p sql) (ext_communicate ext p sql).

(** [subprocess.Popen(argv, stdin=subprocess.PIPE, stdout=subprocess.PIPE)] *)
Definition Popen (argv : list string) : M Σ Proc :=
  extern (EvPopen argv) (ext_Popen ext argv).

(** [RunQuery(sql, settings=None, output_format='pretty', engine='bigquery')].
    The branches of the engine dispatch either return ([inl]) or leave a
    child process [p] ([inr]) to which the SQL is then written. *)
Definition RunQuery (sql : string) (settings : option Settings)
    (output_format engine : string) : M Σ string :=
  let settings := default ∅ settings in
  connection_str ←
    (if bool_decide (engine = "psql")
     then os_environ_get "LOGICA_PSQL_CONNECTION" else mret None);
  match truthy_string connection_str with
  | Some connection_str =>
      connection ← extern (EvPsycopgConnect connection_str)
                          (ext_psycopg2_connect ext connection_str);
      cursor ← extern (EvPostgresExecute sql connection)
                      (ext_PostgresExecute ext sql connection);
      let rows := map (map (ext_DigestPsqlType ext)) (fetchall cursor) in
      mret (ext_ArtisticTable ext (map fst (description cursor)) rows)
  | None =>
      branch ←
        (if bool_decide (engine = "bigquery") then
           inr <$> Popen ["bq"; "query"; "--use_legacy_sql=false";
                          "--format=" +:+ output_format]
         else if bool_decide (engine = "sqlite") then
           inl <$> extern (EvRunSQL sql) (ext_RunSQL ext sql)
         else if bool_decide (engine = "psql") then
           inr <$> Popen ["psql"; "--quiet"]
         else if bool_decide (engine = "trino") then
           let catalog := default (VStr "memory") (settings !! "catalog") in
           let server :=
             default (VStr "http://localhost:8080") (settings !! "server") in
           inr <$> Popen (["trino";
                           "--catalog=" +:+ py_str catalog;
                           "--server=" +:+ py_str server] ++
                          ["--output-format=ALIGNED"])
         else if bool_decide (engine = "presto") then
           let catalog := default (VStr "memory") (settings !! "catalog") in
           let server :=
             default (VStr "http://localhost:8080") (settings !! "server") in
           inr <$> Popen (["presto";
                           "--catalog=" +:+ py_str catalog;
                           "--server=" +:+ py_str server;
                           "--file=/dev/stdin"] ++
                          ["--output-format=ALIGNED"])
         else if bool_decide (engine = "duckdb") then
           connection ← extern EvDuckdbConnect (ext_duckdb_connect ext);
           (if from_option truthy false (settings !! "clingo")
            then extern (EvConnectClingo connection)
                        (ext_ConnectClingo ext connection)
            else mret tt);;
           df ← extern (EvDuckdbSql connection sql)
                       (ext_duckdb_sql_df ext connection sql);
           mret (inl (ext_DataframeAsArtisticTable ext df))
         else
           raise (AssertionError ("Unknown engine: " +:+ engine)));
      match branch with
      | inl result => mret result
      | inr p => communicate p sql
      end
  end.

(** The settings block [RunPredicate] looks up for [engine]. *)
Definition engine_settings
    (annotations : gmap string (gmap string Settings)) (engine : string)
    : Settings :=
  match annotations !! "@Engine" with
  | Some blocks =>
      match blocks !! engine with
      | Some settings => settings
      | None => ∅
      end
  | None => ∅
  end.

(** [RunPredicate(filename, predicate, output_format='pretty',
    user_flags=None, import_root=None)] *)
Definition RunPredicate (filename predicate output_format : string)
    (user_flags : option Flags) (import_root : option string) : M Σ string :=
  p ← GetProgramOrExit filename user_flags import_root;
  sql ← extern (EvFormattedPredicateSql predicate)
               (ext_FormattedPredicateSql ext p predicate);
  let engine := Engine (ext_annotations ext p) in
  let settings := engine_settings (ext_annotations ext p) engine in
  RunQuery sql (Some settings) output_format engine.

(** The [sqlite] branch of [RunQueryPandas]. *)
Definition run_sqlite_script (sql : string) (connection : Conn) : M Σ Frame :=
  let statements := removelast (Splitter.SplitRaw sql) in
  (if bool_decide (1 < length statements)
   then
     let script := String.concat semicolon_newline (removelast statements) in
     extern (EvExecuteScript connection script)
            (ext_executescript ext connection script)
   else mret tt);;
  match last statements with
  | Some statement =>
      extern (EvReadSql statement connection)
             (ext_read_sql ext statement connection)
  | None => raise IndexError
  end.

(** [RunQueryPandas(sql, engine, connection=None)] *)
Definition RunQueryPandas (sql engine : string) (connection : option Conn)
    : M Σ Frame :=
  connection ←
    (if bool_decide (connection = None) && bool_decide (engine = "sqlite")
     then Some <$> extern EvSqliteConnect (ext_SqliteConnect ext)
     else mret connection);
  connection ←
    (if bool_decide (connection = None) && bool_decide (engine = "duckdb")
     then Some <$> extern EvDuckdbConnect (ext_duckdb_connect ext)
     else mret connection);
  match connection with
  | None =>
      raise (AssertionError
               "Connection is required for engines other than SQLite.")
  | Some connection =>
      if bool_decide (engine = "bigquery") then
        extern (EvQuery connection sql)
               (ext_query_to_dataframe ext connection sql)
      else if bool_decide (engine = "psql") then
        cursor ← extern (EvCursorExecute connection sql)
                        (ext_cursor_execute ext connection sql);
        let rows := fetchall cursor in
        let df := DataFrame rows (map fst (description cursor)) in
        mret (applymap (ext_DigestPsqlType ext) df)
      else if bool_decide (engine = "duckdb") then
        extern (EvDuckdbSql connection sql)
               (ext_duckdb_sql_df ext connection sql)
      else if bool_decide (engine = "sqlite") then
        run_sqlite_script sql connection
      else
        raise (Exception
          "Logica only supports BigQuery, PostgreSQL and SQLite for now.")
  end.

(** [RunPredicateToPandas(filename, predicate, user_flags=None,
    import_root=None, connection=None)] *)
Definition RunPredicateToPandas (filename predicate : string)
    (user_flags : option Flags) (import_root : option string)
    (connection : option Conn) : M Σ Frame :=
  p ← GetProgramOrExit filename user_flags import_root;
  sql ← extern (EvFormattedPredicateSql predicate)
               (ext_FormattedPredicateSql ext p predicate);
  let engine := Engine (ext_annotations ext p) in
  RunQueryPandas sql engine connection.

(** [HandleException(exception)] *)
Definition HandleException {A} (exception : PyExn) : M Σ A :=
  sys_exit 1.

(** The body of the first [try] of [CompilePredicateFromString]. *)
Definition parse_stage (logica_string : string) : M Σ Rules :=
  extern (EvParseFile logica_string None)
         (ext_ParseFile ext logica_string None).

(** The body of the second [try] of [CompilePredicateFromString]. *)
Definition build_stage (rules : Rules) (predicate_name : string)
    (user_flags : option Flags) : M Σ (string * string) :=
  program ← extern EvLogicaProgram (ext_LogicaProgram ext rules user_flags);
  sql ← extern (EvFormattedPredicateSql predicate_name)
               (ext_FormattedPredicateSql ext program predicate_name);
  let engine := Engine (ext_annotations ext program) in
  mret (sql, engine).

(** [CompilePredicateFromString(logica_string, predicate_name,
    user_flags=None)] *)
Definition CompilePredicateFromString (logica_string predicate_name : string)
    (user_flags : option Flags) : M Σ (string * string) :=
  rules ←
    try_except (parse_stage logica_string)
      (λ e, match e with
            | ParsingException _ => Some (ShowMessage e;; HandleException e)
            | _ => None
            end);
  try_except (build_stage rules predicate_name user_flags)
    (λ e, match e with
          | RuleCompileException _ => Some (ShowMessage e;; HandleException e)
          | FunctorError _ => Some (ShowMessage e;; HandleException e)
          | TypeErrorCaughtException _ =>
              Some (ShowMessage e;; HandleException e)
          | ParsingException _ => Some (ShowMessage e;; HandleException e)
          | _ => None
          end).

End Library.

(** ** The receiver of the compiled SQL *)

(** [class SqlReceiver]: [__init__] sets the attribute [sql] to [None]. *)
Record SqlReceiver : Type := { receiver_sql : option string }.

(** [SqlReceiver()] *)
Definition SqlReceiver_init : SqlReceiver := {| receiver_sql := None |}.

Section Receiver.

Context {Σ Rules Flags Program : Type}.
Context (ext : External Σ Rules Flags Program).

(** [RunPredicateFromString(logica_string, predicate_name, connection=None,
    user_flags=None, sql_receiver=None)].  The receiver is an object the
    caller keeps: the call gives back, next to its outcome and state, the
    receiver as the call leaves it.  An instance of [SqlReceiver] is truthy,
    [None] is not. *)
Definition RunPredicateFromString (logica_string predicate_name : string)
    (connection : option Conn) (user_flags : option Flags)
    (sql_receiver : option SqlReceiver)
    : State Σ → Outcome Frame * State Σ * option SqlReceiver := λ s,
  match CompilePredicateFromString ext logica_string predicate_name
                                   user_flags s with
  | (Returned (sql, engine), s1) =>
      let sql_receiver :=
        match sql_receiver with
        | Some _ => Some {| receiver_sql := Some sql |}
        | None => None
        end in
      (RunQueryPandas ext sql engine connection s1, sql_receiver)
  | (Raised e, s1) => (Raised e, s1, sql_receiver)
  | (Exited status, s1) => (Exited status, s1, sql_receiver)
  end.

End Receiver.

(** ** Observations on states and traces *)

(** The calls that spawn a child process or talk to one. *)
Definition process_event (ev : Event) : bool :=
  match ev with
  | EvPopen _ | EvCommunicate _ _ => true
  | _ => false
  end.

(** The calls that open a database connection in the process itself. *)
Definition connect_event (ev : Event) : bool :=
  match ev with
  | EvPsycopgConnect _ | EvDuckdbConnect | EvSqliteConnect => true
  | _ => false
  end.

(** The calls of the trace of [s'] made since [s]: [s'] continues [s] with
    the events [delta]. *)
Definition continues {Σ} (s s' : State Σ) (delta : list Event) : Prop :=
  trace s' = trace s ++ delta.


(** ** A small concrete outside, for examples *)

Module Demo.

(** The annotations of the three example programs. *)
Definition annotations_of (rules : string)
    : gmap string (gmap string (gmap string PyVal)) :=
  if bool_decide (rules = "trino program") then
    {[ "@Engine" := {[ "trino" := {[ "catalog" := VStr "hive" ]} ]} ]}
  else if bool_decide (rules = "duckdb program") then
    {[ "@Engine" := {[ "duckdb" := ∅ ]} ]}
  else ∅.

(** The frame a statement yields: one column, named after the statement. *)
Definition frame_of (statement : string) : Frame :=
  {| columns := [VStr statement]; rows := [[VInt 1]] |}.

(** An outside without state: the text [P(x] does not parse, the rules
    [functor error] do not compile, every file holds its own name, and every
    other call succeeds. *)
Definition ext : External unit string unit string := {|
  ext_read := λ filename w, (Returned filename, w);
  ext_ParseFile := λ text _ w,
    if bool_decide (text = "P(x")
    then (Raised (ParsingException "unbalanced parenthesis"), w)
    else (Returned text, w);
  ext_LogicaProgram := λ rules _ w,
    if bool_decide (rules = "functor error")
    then (Raised (FunctorError "functor of unknown predicate"), w)
    else (Returned rules, w);
  ext_annotations := annotations_of;
  ext_FormattedPredicateSql := λ _ predicate w,
    (Returned ("SELECT * FROM " +:+ predicate +:+ ";"), w);
  ext_Popen := λ _ w, (Returned 0, w);
  ext_communicate := λ _ input w, (Returned ("output of " +:+ input), w);
  ext_psycopg2_connect := λ _ w, (Returned 1, w);
  ext_PostgresExecute := λ _ _ w,
    (Returned {| description := []; fetchall := [] |}, w);
  ext_DigestPsqlType := λ v, v;
  ext_ArtisticTable := λ _ _, "table";
  ext_RunSQL := λ _ w, (Returned "table", w);
  ext_duckdb_connect := λ w, (Returned 2, w);
  ext_ConnectClingo := λ _ w, (Returned tt, w);
  ext_duckdb_sql_df := λ _ sql w, (Returned (frame_of sql), w);
  ext_DataframeAsArtisticTable := λ _, "table";
  ext_SqliteConnect := λ w, (Returned 3, w);
  ext_query_to_dataframe := λ _ sql w, (Returned (frame_of sql), w);
  ext_cursor_execute := λ _ _ w,
    (Returned {| description := []; fetchall := [] |}, w);
  ext_executescript := λ _ _ w, (Returned tt, w);
  ext_read_sql := λ statement _ w, (Returned (frame_of statement), w)
|}.

(** Three statements, with semicolons inside a string literal, a line
    comment and a block comment. *)
Definition sample_statements : list string :=
  ["CREATE TABLE t(x) AS VALUES (';')";
   String Splitter.newline "INSERT INTO t VALUES (2) -- one; two"
     +:+ String Splitter.newline EmptyString;
   " SELECT * /* all; */ FROM t"].

(** A fresh process: empty environment, nothing called yet. *)
Definition start : State unit :=
  {| world := tt; environ := ∅; trace := [] |}.

End Demo.

(** ** A second outside, with failures at every stage *)

Module Scenario.

(** The annotations of the example programs. *)
Definition annotations_of (rules : string)
    : gmap string (gmap string (gmap string PyVal)) :=
  if bool_decide (rules = "sqlite program") then
    {[ "@Engine" := {[ "sqlite" := ∅ ]} ]}
  else if bool_decide (rules = "psql program") then
    {[ "@Engine" := {[ "psql" := ∅ ]} ]}
  else ∅.

(** A cursor over two columns and two rows. *)
Definition people : Cursor :=
  {| description := [(VStr "name", [VInt 25]); (VStr "member", [VInt 16])];
     fetchall := [[VStr "ada"; VBool true]; [VStr "bob"; VNone]] |}.

(** A digestion that turns [None] into the string [NULL]. *)
Definition digest (v : PyVal) : PyVal :=
  match v with
  | VNone => VStr "NULL"
  | _ => v
  end.

(** An outside without state: the file [missing.l] cannot be read, the text
    [P(x] does not parse, the rules [type error] and [rule error] do not
    compile, the predicate [Ill] is ill-typed, the predicate [Nope] is
    unknown, and every other call succeeds. *)
Definition ext : External unit string unit string := {|
  ext_read := λ filename w,
    if bool_decide (filename = "missing.l")
    then (Raised (ExternalError "No such file or directory"), w)
    else (Returned filename, w);
  ext_ParseFile := λ text _ w,
    if bool_decide (text = "P(x")
    then (Raised (ParsingException "unbalanced parenthesis"), w)
    else (Returned text, w);
  ext_LogicaProgram := λ rules _ w,
    if bool_decide (rules = "type error")
    then (Raised (TypeErrorCaughtException "Num is not Str"), w)
    else if bool_decide (rules = "rule error")
    then (Raised (RuleCompileException "unknown variable"), w)
    else (Returned rules, w);
  ext_annotations := annotations_of;
  ext_FormattedPredicateSql := λ _ predicate w,
    if bool_decide (predicate = "Ill")
    then (Raised (TypeErrorCaughtException "Num is not Str"), w)
    else if bool_decide (predicate = "Nope")
    then (Raised (ExternalError "KeyError: Nope"), w)
    else (Returned ("SELECT * FROM " +:+ predicate +:+ ";"), w);
  ext_Popen := λ _ w, (Returned 0, w);
  ext_communicate := λ _ input w, (Returned ("output of " +:+ input), w);
  ext_psycopg2_connect := λ _ w, (Returned 1, w);
  ext_PostgresExecute := λ _ _ w, (Returned people, w);
  ext_DigestPsqlType := digest;
  ext_ArtisticTable := λ _ _, "table";
  ext_RunSQL := λ _ w, (Returned "table", w);
  ext_duckdb_connect := λ w, (Returned 2, w);
  ext_ConnectClingo := λ _ w, (Returned tt, w);
  ext_duckdb_sql_df := λ _ sql w, (Returned (Demo.frame_of sql), w);
  ext_DataframeAsArtisticTable := λ _, "table";
  ext_SqliteConnect := λ w, (Returned 3, w);
  ext_query_to_dataframe := λ _ sql w, (Returned (Demo.frame_of sql), w);
  ext_cursor_execute := λ _ _ w, (Returned people, w);
  ext_executescript := λ _ _ w, (Returned tt, w);
  ext_read_sql := λ statement _ w, (Returned (Demo.frame_of statement), w)
|}.

(** A fresh process in which the connection string is set. *)
Definition configured : State unit :=
  {| world := tt;
     environ := {[ "LOGICA_PSQL_CONNECTION" := "dbname=logica" ]};
     trace := [] |}.

(** A fresh process in which the connection string is set to the empty
    string. *)
Definition blank : State unit :=
  {| world := tt;
     environ := {[ "LOGICA_PSQL_CONNECTION" := EmptyString ]};
     trace := [] |}.

End Scenario.

(** * Properties *)

(** ** The statement splitter *)

Module SplitterFacts.
Import Splitter.

Lemma concat_cons_cons (sep x y : string) (l : list string) :
  String.concat sep (x :: y :: l) = x +:+ sep +:+ String.concat sep (y :: l).
Proof. reflexivity. Qed.

Lemma concat_String (sep : string) (c : ascii) (seg : string)
    (segs : list string) :
  String.concat sep (String c seg :: segs)
  = String c (String.concat sep (seg :: segs)).
Proof. destruct segs; reflexivity. Qed.

Lemma split_from_cons (q : Lex) (s : string) :
  ∃ seg segs, split_from q s = seg :: segs.
Proof.
  destruct s as [|c rest]; simpl; [eauto|].
  destruct (delimiter q c); [eauto|].
  destruct (split_from (step q c) rest); eauto.
Qed.

Lemma delimiter_semicolon (q : Lex) (c : ascii) :
  delimiter q c = true → c = ";"%char ∧ in_code q = true.
Proof.
  unfold delimiter. intros [Hq Hc]%andb_true_iff.
  by apply Ascii.eqb_eq in Hc.
Qed.

Lemma step_delimiter (q : Lex) : in_code q = true → step q ";" = Code.
Proof. by destruct q. Qed.

(** Splitting loses nothing: the segments joined with [;] are the script. *)
Lemma split_from_lossless (s : string) :
  ∀ q, String.concat ";" (split_from q s) = s.
Proof.
  induction s as [|c rest IH]; intros q; simpl; [done|].
  destruct (delimiter q c) eqn:Hd.
  - apply delimiter_semicolon in Hd as [-> _].
    destruct (split_from_cons (step q ";") rest) as (seg & segs & Hs).
    rewrite Hs, concat_cons_cons, <- Hs, IH. reflexivity.
  - destruct (split_from_cons (step q c) rest) as (seg & segs & Hs).
    rewrite Hs, concat_String, <- Hs, IH. reflexivity.
Qed.

(** A text without delimiter is one segment. *)
Lemma split_from_no_delimiter (s : string) :
  ∀ q, no_delimiter q s = true → split_from q s = [s].
Proof.
  induction s as [|c rest IH]; intros q; simpl; [done|].
  intros [Hd Hrest]%andb_true_iff. apply negb_true_iff in Hd.
  by rewrite Hd, (IH _ Hrest).
Qed.

(** A closed text without delimiter, followed by a semicolon, is the first
    segment; the scan goes on in state [Code]. *)
Lemma split_from_statement (s rest : string) :
  ∀ q, no_delimiter q s = true → in_code (run q s) = true →
       split_from q (s +:+ String ";" rest) = s :: split_from Code rest.
Proof.
  induction s as [|c s IH]; intros q; simpl.
  - intros _ Hq. unfold delimiter. rewrite Hq. simpl.
    by rewrite step_delimiter.
  - intros [Hd Hs]%andb_true_iff Hq. apply negb_true_iff in Hd.
    by rewrite Hd, (IH _ Hs Hq).
Qed.

(** A terminated script splits into its statements and its tail. *)
Lemma SplitRaw_terminated (stmts : list string) (tail : string) :
  forallb statement stmts = true → no_delimiter Code tail = true →
  SplitRaw (terminated_script stmts tail) = stmts ++ [tail].
Proof.
  intros Hs Ht. unfold SplitRaw, terminated_script.
  induction stmts as [|st stmts IH]; simpl in *.
  - by apply split_from_no_delimiter.
  - apply andb_true_iff in Hs as [[Hd Hq]%andb_true_iff Hs].
    by rewrite split_from_statement, IH.
Qed.

Lemma concat_foldr (stmts : list string) (final : string) :
  String.concat ";" (stmts ++ [final]) = terminated_script stmts final.
Proof.
  unfold terminated_script. induction stmts as [|st stmts IH]; [done|].
  change ((st :: stmts) ++ [final]) with (st :: (stmts ++ [final])).
  destruct (stmts ++ [final]) as [|x l] eqn:E.
  - by destruct stmts.
  - rewrite concat_cons_cons, IH. reflexivity.
Qed.

End SplitterFacts.

Module SplitterRoundTrip.
Import Splitter SplitterFacts Demo.

(** Splitting never loses text, whatever the script: the segments joined
    with [;] give the script back. *)
Lemma SplitRaw_lossless (s : string) : String.concat ";" (SplitRaw s) = s.
Proof. apply split_from_lossless. Qed.

(** C4. Statement splitting round-trips: a script made of statements that
    are free of delimiting semicolons (semicolons inside string literals and
    comments are allowed, they are no delimiters) and joined with [;] splits
    into exactly these statements, in the same order, and joining the
    segments with [;] gives the script back. *)
Theorem SplitRaw_round_trip (stmts : list string) :
  stmts ≠ [] → forallb statement stmts = true →
  SplitRaw (String.concat ";" stmts) = stmts
  ∧ String.concat ";" (SplitRaw (String.concat ";" stmts))
    = String.concat ";" stmts.
Proof.
  intros Hne Hs. split; [|apply SplitRaw_lossless].
  destruct (exists_last Hne) as (init & final & ->).
  rewrite forallb_app in Hs. apply andb_true_iff in Hs as [Hinit Hfinal].
  simpl in Hfinal. rewrite andb_true_r in Hfinal.
  apply andb_true_iff in Hfinal as [Hfinal _].
  rewrite concat_foldr. by apply SplitRaw_terminated.
Qed.

(** Semicolons inside a string literal, a line comment and a block comment
    do not split; the one in code does. *)
Example SplitRaw_quoted_semicolons :
  SplitRaw "SELECT ';' /* ; */ FROM t; SELECT 2 -- ;"
  = ["SELECT ';' /* ; */ FROM t"; " SELECT 2 -- ;"].
Proof. reflexivity. Qed.

Lemma SplitRaw_round_trip_witness :
  (sample_statements ≠ [] ∧ forallb statement sample_statements = true)
  ∧ SplitRaw (String.concat ";" sample_statements) = sample_statements
  ∧ String.concat ";" (SplitRaw (String.concat ";" sample_statements))
    = String.concat ";" sample_statements.
Proof.
  split; [split; [discriminate | reflexivity]|].
  apply SplitRaw_round_trip; [discriminate | reflexivity].
Defined.

End SplitterRoundTrip.

(** ** Execution and compilation *)

(** Unfolds the monad down to functions on states. *)
Ltac unfold_M :=
  unfold communicate, Popen, ShowMessage, HandleException, os_environ_get,
    try_except, extern, raise, sys_exit, fmap, M_fmap, mbind, M_bind, mret,
    M_ret in *.

(** Decides the string comparisons of an engine dispatch. *)
Ltac decide_engine :=
  simpl;
  repeat (match goal with
          | |- context [bool_decide (?a = ?b)] =>
              first
                [ rewrite (bool_decide_eq_false_2 (a = b))
                    by (done || congruence)
                | rewrite (bool_decide_eq_true_2 (a = b)) by done ]
          end; simpl).

Section Execution.

Context {Σ Rules Flags Program : Type}.
Context (ext : External Σ Rules Flags Program).

(** C5. For an engine outside the six supported ones, [RunQuery] fails at
    once with the assertion error naming the engine, and the state is the one
    it started in: no process was spawned and no connection opened. *)
Theorem RunQuery_unknown_engine (sql : string)
    (settings : option (gmap string PyVal)) (output_format engine : string)
    (s : State Σ) :
  engine ∉ ["bigquery"; "sqlite"; "psql"; "trino"; "presto"; "duckdb"] →
  RunQuery ext sql settings output_format engine s
  = (Raised (AssertionError ("Unknown engine: " +:+ engine)), s).
Proof.
  intros Hengine.
  repeat (apply not_elem_of_cons in Hengine as [? Hengine]).
  unfold RunQuery. unfold_M. decide_engine. reflexivity.
Qed.

(** C2, as the code has it. With [LOGICA_PSQL_CONNECTION] unset, [RunQuery]
    on engine [psql] raises nothing: it spawns the child process
    [psql --quiet], writes the SQL to it and returns what the process
    prints.  No native connection is opened. *)
Theorem RunQuery_psql_without_connection_string (sql : string)
    (settings : option (gmap string PyVal)) (output_format : string)
    (s : State Σ) :
  environ s !! "LOGICA_PSQL_CONNECTION" = None →
  RunQuery ext sql settings output_format "psql" s
  = (p ← Popen ext ["psql"; "--quiet"]; communicate ext p sql) s.
Proof.
  intros Henv. unfold RunQuery. unfold_M. decide_engine.
  rewrite Henv. simpl.
  destruct (ext_Popen ext _ (world s)) as [[proc|e|n] w]; reflexivity.
Qed.

(** The arguments of the child process of the distributed engines. *)
Lemma RunQuery_distributed_argv (sql : string)
    (settings : option (gmap string PyVal)) (output_format engine : string)
    (extra : list string) (s : State Σ) :
  (engine = "trino" ∧ extra = []) ∨
  (engine = "presto" ∧ extra = ["--file=/dev/stdin"]) →
  RunQuery ext sql settings output_format engine s
  = (p ← Popen ext
       ([engine;
         "--catalog=" +:+ from_option py_str "memory"
                            (default ∅ settings !! "catalog");
         "--server=" +:+ from_option py_str "http://localhost:8080"
                           (default ∅ settings !! "server")]
        ++ extra ++ ["--output-format=ALIGNED"]);
     communicate ext p sql) s.
Proof.
  intros [[-> ->]|[-> ->]]; unfold RunQuery; unfold_M; decide_engine;
    destruct (default ∅ settings !! "catalog"),
             (default ∅ settings !! "server"); simpl;
    destruct (ext_Popen ext _ (world s)) as [[proc|e|n] w]; reflexivity.
Qed.

(** C9. For [trino] and [presto], [RunQuery] spawns the engine's binary with
    [--catalog] and [--server] taken from the settings, [memory] and
    [http://localhost:8080] standing in for an absent key, and with
    [--output-format=ALIGNED]; [presto] gets [--file=/dev/stdin] in addition,
    so that it reads the script from that path.  The SQL is written to the
    standard input of the process in both cases. *)
Theorem RunQuery_trino_presto (sql : string)
    (settings : option (gmap string PyVal)) (output_format : string)
    (s : State Σ) :
  let catalog :=
    from_option py_str "memory" (default ∅ settings !! "catalog") in
  let server :=
    from_option py_str "http://localhost:8080"
                (default ∅ settings !! "server") in
  RunQuery ext sql settings output_format "trino" s
  = (p ← Popen ext ["trino"; "--catalog=" +:+ catalog;
                    "--server=" +:+ server; "--output-format=ALIGNED"];
     communicate ext p sql) s
  ∧ RunQuery ext sql settings output_format "presto" s
    = (p ← Popen ext ["presto"; "--catalog=" +:+ catalog;
                      "--server=" +:+ server; "--file=/dev/stdin";
                      "--output-format=ALIGNED"];
       communicate ext p sql) s.
Proof.
  split.
  - by rewrite (RunQuery_distributed_argv _ _ _ "trino" []); [|left].
  - by rewrite (RunQuery_distributed_argv _ _ _ "presto"
                  ["--file=/dev/stdin"]); [|right].
Qed.

(** What [RunQueryPandas] does once it holds a connection. *)
Lemma RunQueryPandas_connected (sql engine : string) (connection : Conn)
    (s : State Σ) :
  RunQueryPandas ext sql engine (Some connection) s
  = (if bool_decide (engine = "bigquery") then
       extern (EvQuery connection sql)
              (ext_query_to_dataframe ext connection sql)
     else if bool_decide (engine = "psql") then
       cursor ← extern (EvCursorExecute connection sql)
                       (ext_cursor_execute ext connection sql);
       mret (applymap (ext_DigestPsqlType ext)
               (DataFrame (fetchall cursor) (map fst (description cursor))))
     else if bool_decide (engine = "duckdb") then
       extern (EvDuckdbSql connection sql)
              (ext_duckdb_sql_df ext connection sql)
     else if bool_decide (engine = "sqlite") then
       run_sqlite_script ext sql connection
     else
       raise (Exception
         "Logica only supports BigQuery, PostgreSQL and SQLite for now.")) s.
Proof. reflexivity. Qed.

(** Without a connection, an engine other than [sqlite] and [duckdb] gets
    the assertion error before anything else happens. *)
Lemma RunQueryPandas_no_connection (sql engine : string) (s : State Σ) :
  engine ≠ "sqlite" → engine ≠ "duckdb" →
  RunQueryPandas ext sql engine None s
  = (Raised (AssertionError
       "Connection is required for engines other than SQLite."), s).
Proof.
  intros Hsqlite Hduckdb. unfold RunQueryPandas. unfold_M.
  decide_engine. reflexivity.
Qed.

(** C6. Called without a connection, [RunQueryPandas] opens a default
    connection for [sqlite] and for [duckdb] and goes on with it, and fails
    with the missing-connection assertion for every other engine. *)
Theorem RunQueryPandas_default_connection (sql engine : string)
    (s : State Σ) :
  RunQueryPandas ext sql engine None s
  = if bool_decide (engine = "sqlite") then
      (connection ← extern EvSqliteConnect (ext_SqliteConnect ext);
       RunQueryPandas ext sql "sqlite" (Some connection)) s
    else if bool_decide (engine = "duckdb") then
      (connection ← extern EvDuckdbConnect (ext_duckdb_connect ext);
       RunQueryPandas ext sql "duckdb" (Some connection)) s
    else
      (Raised (AssertionError
         "Connection is required for engines other than SQLite."), s).
Proof.
  case_bool_decide as Hsqlite; [subst engine|case_bool_decide as Hduckdb].
  - unfold RunQueryPandas at 1. unfold_M. simpl.
    destruct (ext_SqliteConnect ext (world s)) as [[c|e|n] w]; reflexivity.
  - subst engine. unfold RunQueryPandas at 1. unfold_M. simpl.
    destruct (ext_duckdb_connect ext (world s)) as [[c|e|n] w]; reflexivity.
  - by apply RunQueryPandas_no_connection.
Qed.

(** C7. Given a connection, an engine other than [bigquery], [psql],
    [duckdb] and [sqlite] gets the unsupported-engine error, whose message
    names BigQuery, PostgreSQL and SQLite only; nothing is executed. *)
Theorem RunQueryPandas_unsupported_engine (sql engine : string)
    (connection : Conn) (s : State Σ) :
  engine ∉ ["bigquery"; "psql"; "duckdb"; "sqlite"] →
  RunQueryPandas ext sql engine (Some connection) s
  = (Raised (Exception
       "Logica only supports BigQuery, PostgreSQL and SQLite for now."), s).
Proof.
  intros Hengine.
  repeat (apply not_elem_of_cons in Hengine as [? Hengine]).
  rewrite RunQueryPandas_connected. decide_engine. reflexivity.
Qed.

(** C10. The missing-connection check comes first: without a connection,
    every engine other than [sqlite] and [duckdb] fails with the
    missing-connection assertion and nothing is called; this holds for the
    engines that get the unsupported-engine error when a connection is
    given, [trino] and [presto] among them. *)
Theorem RunQueryPandas_missing_connection_first (sql engine : string)
    (s : State Σ) :
  engine ∉ ["sqlite"; "duckdb"] →
  RunQueryPandas ext sql engine None s
  = (Raised (AssertionError
       "Connection is required for engines other than SQLite."), s)
  ∧ fst (RunQueryPandas ext sql engine None s)
    ≠ Raised (Exception
        "Logica only supports BigQuery, PostgreSQL and SQLite for now.")
  ∧ (engine ∉ ["bigquery"; "psql"] →
     ∀ connection,
       fst (RunQueryPandas ext sql engine (Some connection) s)
       = Raised (Exception
           "Logica only supports BigQuery, PostgreSQL and SQLite for now.")).
Proof.
  intros Hengine.
  repeat (apply not_elem_of_cons in Hengine as [? Hengine]).
  rewrite RunQueryPandas_no_connection by done.
  split; [done|]. split; [done|].
  intros Hother connection.
  repeat (apply not_elem_of_cons in Hother as [? Hother]).
  rewrite RunQueryPandas_connected. decide_engine. reflexivity.
Qed.

(** C3, as the code has it. For a script in which every statement, the final
    one included, is followed by a semicolon, the [sqlite] branch of
    [RunQueryPandas] runs all statements but the final one as one script
    through [executescript] (when there is any), which yields no frame, and
    returns the frame [read_sql] gives for the final statement.  What follows
    the last semicolon is dropped. *)
Theorem RunQueryPandas_sqlite_script (init : list string)
    (final tail : string) (connection : Conn) (s : State Σ) :
  forallb Splitter.statement (init ++ [final]) = true →
  Splitter.no_delimiter Splitter.Code tail = true →
  RunQueryPandas ext (Splitter.terminated_script (init ++ [final]) tail)
                 "sqlite" (Some connection) s
  = ((if bool_decide (init ≠ [])
      then extern (EvExecuteScript connection
                     (String.concat semicolon_newline init))
                  (ext_executescript ext connection
                     (String.concat semicolon_newline init))
      else mret tt);;
     extern (EvReadSql final connection)
            (ext_read_sql ext final connection)) s.
Proof.
  intros Hstmts Htail.
  rewrite RunQueryPandas_connected. decide_engine.
  unfold run_sqlite_script.
  rewrite SplitterFacts.SplitRaw_terminated by done.
  rewrite !removelast_last, last_snoc.
  destruct init as [|st init]; [reflexivity|].
  rewrite (bool_decide_eq_true_2 (st :: init ≠ [])) by done.
  rewrite bool_decide_eq_true_2; [reflexivity|].
  simpl. rewrite length_app. simpl. lia.
Qed.

(** X12. Exit mode: [GetProgramOrExit] shows the diagnostic of a parse
    failure, and of a rule-compile or functor failure of the program
    construction, then exits with status 1. *)
Lemma GetProgramOrExit_failure (filename : string)
    (user_flags : option Flags) (import_root : option string) (e : PyExn)
    (text : string) (s s0 s' : State Σ) :
  extern (EvOpen filename) (ext_read ext filename) s = (Returned text, s0) →
  ((∃ message, e = ParsingException message)
   ∧ extern (EvParseFile text import_root)
            (ext_ParseFile ext text import_root) s0 = (Raised e, s'))
  ∨ (((∃ message, e = RuleCompileException message)
      ∨ (∃ message, e = FunctorError message))
     ∧ ∃ rules s1,
         extern (EvParseFile text import_root)
                (ext_ParseFile ext text import_root) s0 = (Returned rules, s1)
         ∧ extern EvLogicaProgram (ext_LogicaProgram ext rules user_flags) s1
           = (Raised e, s')) →
  GetProgramOrExit ext filename user_flags import_root s
  = (Exited 1, {| world := world s'; environ := environ s';
                  trace := trace s' ++ [EvShowMessage e] |}).
Proof.
  intros Hread Hfail.
  unfold GetProgramOrExit, ParseOrExit, mbind, M_bind, try_except.
  rewrite Hread.
  destruct Hfail as [[[m ->] Hparse]|[Hkind (rules & s1 & Hparse & Hbuild)]].
  - rewrite Hparse. reflexivity.
  - rewrite Hparse, Hbuild.
    destruct Hkind as [[m ->]|[m ->]]; reflexivity.
Qed.

(** C1, as the code has it. On every compile-stage failure, a parse error
    of the parse stage or any of the four failures raised while the program
    is built, its SQL formatted and its engine read,
    [CompilePredicateFromString] shows the diagnostic of the failure and then
    ends the process with status 1 through [HandleException]; it returns
    nothing to its caller. *)
Theorem CompilePredicateFromString_failure
    (logica_string predicate_name : string) (user_flags : option Flags)
    (e : PyExn) (s s' : State Σ) :
  compile_failure e = true →
  ((∃ message, e = ParsingException message)
   ∧ parse_stage ext logica_string s = (Raised e, s'))
  ∨ (∃ rules s1,
       parse_stage ext logica_string s = (Returned rules, s1)
       ∧ build_stage ext rules predicate_name user_flags s1 = (Raised e, s')) →
  CompilePredicateFromString ext logica_string predicate_name user_flags s
  = (Exited 1, {| world := world s'; environ := environ s';
                  trace := trace s' ++ [EvShowMessage e] |}).
Proof.
  intros Hkind Hfail.
  unfold CompilePredicateFromString, mbind, M_bind, try_except.
  destruct Hfail as [[[m ->] Hparse]|(rules & s1 & Hparse & Hbuild)].
  - rewrite Hparse. reflexivity.
  - rewrite Hparse, Hbuild. destruct e; try discriminate; reflexivity.
Qed.

(** C8. [RunPredicate] runs the SQL of the predicate on the engine the
    annotations name, with the settings block found under that engine name.
    The engine is the value of [@Engine], and [bigquery] without one; the
    settings are the block of that engine as it stands, and empty when there
    is no block. *)
Theorem RunPredicate_engine_resolution
    (filename predicate output_format : string) (user_flags : option Flags)
    (import_root : option string) (p : Program) (sql : string)
    (s s1 s2 : State Σ) :
  GetProgramOrExit ext filename user_flags import_root s = (Returned p, s1) →
  extern (EvFormattedPredicateSql predicate)
         (ext_FormattedPredicateSql ext p predicate) s1 = (Returned sql, s2) →
  let annotations := ext_annotations ext p in
  RunPredicate ext filename predicate output_format user_flags import_root s
  = RunQuery ext sql
      (Some (engine_settings annotations (Engine annotations)))
      output_format (Engine annotations) s2
  ∧ (∀ engine block,
       annotations !! "@Engine" = Some {[ engine := block ]} →
       Engine annotations = engine
       ∧ engine_settings annotations (Engine annotations) = block)
  ∧ (default ∅ (annotations !! "@Engine") = ∅ →
     Engine annotations = "bigquery"
     ∧ engine_settings annotations (Engine annotations) = ∅).
Proof.
  intros Hprogram Hsql annotations. split; [|split].
  - unfold RunPredicate, mbind, M_bind. rewrite Hprogram, Hsql. reflexivity.
  - intros engine block Hann.
    assert (Engine annotations = engine) as ->.
    { unfold Engine. rewrite Hann. simpl.
      by rewrite map_to_list_singleton. }
    split; [done|].
    unfold engine_settings. rewrite Hann.
    by rewrite lookup_singleton_eq.
  - intros Hnone.
    assert (Engine annotations = "bigquery") as ->.
    { unfold Engine. rewrite Hnone. by rewrite map_to_list_empty. }
    split; [done|].
    unfold engine_settings.
    destruct (annotations !! "@Engine") as [blocks|]; [|done].
    simpl in Hnone. subst blocks. by rewrite lookup_empty.
Qed.

End Execution.

(** ** The properties at concrete inputs *)

Module Instances.
Import Demo.

(** Proves that a string is none of the strings of a list. *)
Ltac not_listed :=
  repeat (apply not_elem_of_cons; split; [discriminate|]);
  apply not_elem_of_nil.

Lemma RunQuery_unknown_engine_witness :
  ("mysql" ∉ ["bigquery"; "sqlite"; "psql"; "trino"; "presto"; "duckdb"])
  ∧ RunQuery ext "SELECT 1;" None "pretty" "mysql" start
    = (Raised (AssertionError "Unknown engine: mysql"), start).
Proof.
  split; [not_listed|].
  apply (RunQuery_unknown_engine ext "SELECT 1;" None "pretty" "mysql" start).
  not_listed.
Defined.

(** C2 fails on the code: with an empty environment, [RunQuery] on [psql]
    raises no error; it spawns [psql --quiet], pipes the SQL to it and
    returns its output. *)
Lemma RunQuery_psql_spawns_without_connection_string :
  environ start !! "LOGICA_PSQL_CONNECTION" = None
  ∧ RunQuery ext "SELECT 1;" None "pretty" "psql" start
    = (Returned "output of SELECT 1;",
       {| world := tt; environ := ∅;
          trace := [EvPopen ["psql"; "--quiet"];
                    EvCommunicate 0 "SELECT 1;"] |})
  ∧ (∀ e, fst (RunQuery ext "SELECT 1;" None "pretty" "psql" start)
          ≠ Raised e).
Proof. split; [reflexivity|]. split; [reflexivity|]. discriminate. Qed.

Lemma RunQuery_psql_without_connection_string_witness :
  environ start !! "LOGICA_PSQL_CONNECTION" = None
  ∧ RunQuery ext "SELECT 1;" None "pretty" "psql" start
    = (p ← Popen ext ["psql"; "--quiet"]; communicate ext p "SELECT 1;")
        start.
Proof.
  split; [reflexivity|].
  apply (RunQuery_psql_without_connection_string
           ext "SELECT 1;" None "pretty" start).
  reflexivity.
Defined.

(** C3 fails on the code: of the script [SELECT 1;SELECT 2], whose final
    statement has no semicolon after it, only [SELECT 1] is read; the final
    statement [SELECT 2] is never executed and its frame is not the one
    returned. *)
Lemma RunQueryPandas_drops_unterminated_statement :
  Splitter.SplitRaw "SELECT 1;SELECT 2" = ["SELECT 1"; "SELECT 2"]
  ∧ RunQueryPandas ext "SELECT 1;SELECT 2" "sqlite" (Some 7) start
    = (Returned (frame_of "SELECT 1"),
       {| world := tt; environ := ∅;
          trace := [EvReadSql "SELECT 1" 7] |})
  ∧ fst (RunQueryPandas ext "SELECT 1;SELECT 2" "sqlite" (Some 7) start)
    ≠ fst (ext_read_sql ext "SELECT 2" 7 tt).
Proof. split; [reflexivity|]. split; [reflexivity|]. discriminate. Qed.

Lemma RunQueryPandas_sqlite_script_witness :
  (forallb Splitter.statement
     (["CREATE TABLE t(x) AS VALUES (1)"] ++ [" SELECT * FROM t"]) = true
   ∧ Splitter.no_delimiter Splitter.Code EmptyString = true)
  ∧ RunQueryPandas ext
      "CREATE TABLE t(x) AS VALUES (1); SELECT * FROM t;" "sqlite" (Some 7)
      start
    = (Returned (frame_of " SELECT * FROM t"),
       {| world := tt; environ := ∅;
          trace := [EvExecuteScript 7 "CREATE TABLE t(x) AS VALUES (1)";
                    EvReadSql " SELECT * FROM t" 7] |}).
Proof.
  split; [split; reflexivity|].
  exact (RunQueryPandas_sqlite_script ext
           ["CREATE TABLE t(x) AS VALUES (1)"] " SELECT * FROM t"
           EmptyString 7 start eq_refl eq_refl).
Defined.

Lemma RunQueryPandas_unsupported_engine_witness :
  ("trino" ∉ ["bigquery"; "psql"; "duckdb"; "sqlite"])
  ∧ RunQueryPandas ext "SELECT 1;" "trino" (Some 7) start
    = (Raised (Exception
         "Logica only supports BigQuery, PostgreSQL and SQLite for now."),
       start).
Proof.
  split; [not_listed|].
  apply (RunQueryPandas_unsupported_engine ext "SELECT 1;" "trino" 7 start).
  not_listed.
Defined.

Lemma RunQueryPandas_missing_connection_first_witness :
  ("presto" ∉ ["sqlite"; "duckdb"])
  ∧ RunQueryPandas ext "SELECT 1;" "presto" None start
    = (Raised (AssertionError
         "Connection is required for engines other than SQLite."), start)
  ∧ fst (RunQueryPandas ext "SELECT 1;" "presto" (Some 7) start)
    = Raised (Exception
        "Logica only supports BigQuery, PostgreSQL and SQLite for now.").
Proof.
  assert ("presto" ∉ ["sqlite"; "duckdb"]) as Hengine by not_listed.
  split; [exact Hengine|].
  destruct (RunQueryPandas_missing_connection_first
              ext "SELECT 1;" "presto" start Hengine)
    as (Hmissing & _ & Hunsupported).
  split; [exact Hmissing|].
  apply Hunsupported. not_listed.
Defined.

(** C1 fails on the code: on a text that does not parse,
    [CompilePredicateFromString] shows the diagnostic and ends the process
    with status 1; nothing is returned. *)
Lemma CompilePredicateFromString_exits_on_failure :
  CompilePredicateFromString ext "P(x" "P" None start
  = (Exited 1,
     {| world := tt; environ := ∅;
        trace := [EvParseFile "P(x" None;
                  EvShowMessage
                    (ParsingException "unbalanced parenthesis")] |})
  ∧ (∀ value, fst (CompilePredicateFromString ext "P(x" "P" None start)
              ≠ Returned value).
Proof. split; [reflexivity|]. discriminate. Qed.

Lemma CompilePredicateFromString_failure_witness :
  (compile_failure (ParsingException "unbalanced parenthesis") = true
   ∧ parse_stage ext "P(x" start
     = (Raised (ParsingException "unbalanced parenthesis"),
        {| world := tt; environ := ∅;
           trace := [EvParseFile "P(x" None] |}))
  ∧ CompilePredicateFromString ext "P(x" "P" None start
    = (Exited 1,
       {| world := tt; environ := ∅;
          trace := [EvParseFile "P(x" None;
                    EvShowMessage
                      (ParsingException "unbalanced parenthesis")] |}).
Proof.
  split; [split; reflexivity|].
  apply (CompilePredicateFromString_failure ext "P(x" "P" None
           (ParsingException "unbalanced parenthesis") start
           {| world := tt; environ := ∅;
              trace := [EvParseFile "P(x" None] |} eq_refl).
  left. split; [by eexists | reflexivity].
Defined.

(** A functor failure of the program construction ends the process in the
    same way. *)
Example CompilePredicateFromString_functor_error :
  CompilePredicateFromString ext "functor error" "P" None start
  = (Exited 1,
     {| world := tt; environ := ∅;
        trace := [EvParseFile "functor error" None; EvLogicaProgram;
                  EvShowMessage
                    (FunctorError "functor of unknown predicate")] |}).
Proof. reflexivity. Qed.

(** The child processes of [trino] without settings and of [presto] with a
    catalog. *)
Example RunQuery_trino_defaults :
  RunQuery ext "SELECT 1;" None "pretty" "trino" start
  = (Returned "output of SELECT 1;",
     {| world := tt; environ := ∅;
        trace := [EvPopen ["trino"; "--catalog=memory";
                           "--server=http://localhost:8080";
                           "--output-format=ALIGNED"];
                  EvCommunicate 0 "SELECT 1;"] |}).
Proof. reflexivity. Qed.

Example RunQuery_presto_catalog :
  RunQuery ext "SELECT 1;" (Some {[ "catalog" := VStr "hive" ]}) "pretty"
           "presto" start
  = (Returned "output of SELECT 1;",
     {| world := tt; environ := ∅;
        trace := [EvPopen ["presto"; "--catalog=hive";
                           "--server=http://localhost:8080";
                           "--file=/dev/stdin"; "--output-format=ALIGNED"];
                  EvCommunicate 0 "SELECT 1;"] |}).
Proof. reflexivity. Qed.

(** An [@Engine] annotation without settings gives that engine and empty
    settings; no annotation gives [bigquery]. *)
Example Engine_duckdb_no_settings :
  Engine (annotations_of "duckdb program") = "duckdb"
  ∧ engine_settings (annotations_of "duckdb program") "duckdb" = ∅
  ∧ Engine (annotations_of "plain program") = "bigquery".
Proof. split; [reflexivity|]. split; reflexivity. Qed.

Lemma RunPredicate_engine_resolution_witness :
  let s1 := {| world := tt; environ := ∅;
               trace := [EvOpen "trino program";
                         EvParseFile "trino program" None;
                         EvLogicaProgram] |} in
  let s2 := {| world := tt; environ := ∅;
               trace := trace s1 ++ [EvFormattedPredicateSql "P"] |} in
  (GetProgramOrExit ext "trino program" None None start
   = (Returned "trino program", s1)
   ∧ extern (EvFormattedPredicateSql "P")
            (ext_FormattedPredicateSql ext "trino program" "P") s1
     = (Returned "SELECT * FROM P;", s2))
  ∧ RunPredicate ext "trino program" "P" "pretty" None None start
    = RunQuery ext "SELECT * FROM P;"
        (Some {[ "catalog" := VStr "hive" ]}) "pretty" "trino" s2.
Proof.
  intros s1 s2. split; [split; reflexivity|].
  destruct (RunPredicate_engine_resolution ext "trino program" "P" "pretty"
              None None "trino program" "SELECT * FROM P;" start s1 s2
              eq_refl eq_refl)
    as (Hrun & Hblock & _).
  destruct (Hblock "trino" {[ "catalog" := VStr "hive" ]} eq_refl)
    as [Hengine Hsettings].
  rewrite Hrun, Hsettings, Hengine. reflexivity.
Defined.

End Instances.

(** ** Further properties of the execution functions *)

(** Runs the external calls of a goal, one case for each way they end. *)
Ltac run_extern :=
  repeat (match goal with
          | |- context [let '(_, _) := ?x in _] =>
              lazymatch type of x with
              | (_ * State _)%type => fail
              | _ => destruct x as [[?|?|?] ?]
              end
          end; simpl).

(** Closes a goal [∃ delta, continues s s' delta ∧ Forall P delta] once the
    trace of [s'] is known. *)
Ltac solve_delta :=
  unfold continues; simpl; rewrite <- ?app_assoc; simpl;
  first [ exists []; split; [by rewrite app_nil_r | constructor]
        | eexists; split; [reflexivity | by repeat constructor] ].

Section RunQueryFacts.

Context {Σ Rules Flags Program : Type}.
Context (ext : External Σ Rules Flags Program).

(** X1. The output format reaches the [bq] client only: for every other
    engine, [RunQuery] does the same whatever format is asked for. *)
Theorem RunQuery_output_format_only_bigquery (sql : string)
    (settings : option (gmap string PyVal)) (format1 format2 engine : string)
    (s : State Σ) :
  engine ≠ "bigquery" →
  RunQuery ext sql settings format1 engine s
  = RunQuery ext sql settings format2 engine s.
Proof.
  intros Hengine. unfold RunQuery.
  rewrite (bool_decide_eq_false_2 (engine = "bigquery")) by done.
  reflexivity.
Qed.

(** X2. The settings are read for [trino], [presto] and [duckdb] only: for
    every other engine, [RunQuery] does the same whatever the settings. *)
Theorem RunQuery_settings_only_trino_presto_duckdb (sql : string)
    (settings1 settings2 : option (gmap string PyVal))
    (output_format engine : string) (s : State Σ) :
  engine ∉ ["trino"; "presto"; "duckdb"] →
  RunQuery ext sql settings1 output_format engine s
  = RunQuery ext sql settings2 output_format engine s.
Proof.
  intros Hengine.
  repeat (apply not_elem_of_cons in Hengine as [? Hengine]).
  unfold RunQuery.
  rewrite (bool_decide_eq_false_2 (engine = "trino")) by done.
  rewrite (bool_decide_eq_false_2 (engine = "presto")) by done.
  rewrite (bool_decide_eq_false_2 (engine = "duckdb")) by done.
  reflexivity.
Qed.

(** X3. A connection string that is set to the empty string counts as
    unset: [RunQuery] on [psql] spawns the [psql] client. *)
Theorem RunQuery_psql_empty_connection_string (sql : string)
    (settings : option (gmap string PyVal)) (output_format : string)
    (s : State Σ) :
  environ s !! "LOGICA_PSQL_CONNECTION" = Some EmptyString →
  RunQuery ext sql settings output_format "psql" s
  = (p ← Popen ext ["psql"; "--quiet"]; communicate ext p sql) s.
Proof.
  intros Henv. unfold RunQuery. unfold_M. decide_engine.
  rewrite Henv. simpl. run_extern; reflexivity.
Qed.

(** X4. With a connection string that is set and not empty, [RunQuery] on
    [psql] connects through [psycopg2] with that string, executes the SQL
    and returns the table made of the column names and the digested rows of
    the cursor. *)
Theorem RunQuery_psql_native (sql : string)
    (settings : option (gmap string PyVal))
    (output_format connection_str : string) (s : State Σ) :
  environ s !! "LOGICA_PSQL_CONNECTION" = Some connection_str →
  connection_str ≠ EmptyString →
  RunQuery ext sql settings output_format "psql" s
  = (connection ← extern (EvPsycopgConnect connection_str)
                         (ext_psycopg2_connect ext connection_str);
     cursor ← extern (EvPostgresExecute sql connection)
                     (ext_PostgresExecute ext sql connection);
     mret (ext_ArtisticTable ext (map fst (description cursor))
             (map (map (ext_DigestPsqlType ext)) (fetchall cursor)))) s.
Proof.
  intros Henv Hset. unfold RunQuery. unfold_M. decide_engine.
  rewrite Henv. simpl.
  destruct (String.eqb_spec connection_str EmptyString) as [|_]; [done|].
  reflexivity.
Qed.

(** X5. On [bigquery], [RunQuery] spawns [bq query] with standard SQL and
    the output format asked for, writes the SQL to it and returns what it
    prints. *)
Theorem RunQuery_bigquery (sql : string)
    (settings : option (gmap string PyVal)) (output_format : string)
    (s : State Σ) :
  RunQuery ext sql settings output_format "bigquery" s
  = (p ← Popen ext ["bq"; "query"; "--use_legacy_sql=false";
                    "--format=" +:+ output_format];
     communicate ext p sql) s.
Proof.
  unfold RunQuery. unfold_M. decide_engine. run_extern; reflexivity.
Qed.

(** The events of a call of [RunQuery], for each way through it. *)
Lemma RunQuery_events (sql : string) (settings : option (gmap string PyVal))
    (output_format engine : string) (s : State Σ) :
  ∃ delta,
    continues s (snd (RunQuery ext sql settings output_format engine s)) delta
    ∧ ((engine = "sqlite" ∨ engine = "duckdb"
        ∨ (engine = "psql"
           ∧ truthy_string (environ s !! "LOGICA_PSQL_CONNECTION") ≠ None)) →
       Forall (λ ev, process_event ev = false) delta)
    ∧ ((engine ∈ ["bigquery"; "trino"; "presto"]
        ∨ (engine = "psql"
           ∧ truthy_string (environ s !! "LOGICA_PSQL_CONNECTION") = None)) →
       Forall (λ ev, connect_event ev = false) delta)
    ∧ (∀ connection,
         EvConnectClingo connection ∈ delta →
         engine = "duckdb"
         ∧ from_option truthy false (default ∅ settings !! "clingo") = true).
Proof.
  unfold RunQuery. unfold_M.
  destruct (decide (engine = "psql")) as [->|Hpsql].
  - decide_engine.
    destruct (truthy_string (environ s !! "LOGICA_PSQL_CONNECTION"));
      simpl; run_extern;
      (eexists; split;
       [unfold continues; simpl; rewrite <- ?app_assoc; reflexivity|]);
      (split; [intros [?|[?|[_ ?]]]; (done || by repeat constructor)|]);
      (split; [intros [Hin|[_ ?]]; [|done || by repeat constructor];
               by repeat (apply elem_of_cons in Hin as [?|Hin]; [done|]);
                  apply elem_of_nil in Hin|]);
      intros c Hin; simpl in Hin;
      repeat (apply elem_of_cons in Hin as [?|Hin]; [done|]);
      by apply elem_of_nil in Hin.
  - rewrite (bool_decide_eq_false_2 (engine = "psql")) by done. simpl.
    repeat case_bool_decide; subst; simpl;
      try destruct (from_option truthy false _) eqn:Hclingo;
      simpl; run_extern;
      try (exists []; split; [unfold continues; simpl; by rewrite app_nil_r|]);
      try (eexists; split;
           [unfold continues; simpl; rewrite <- ?app_assoc; reflexivity|]);
      (split; [intros [?|[?|[? ?]]]; (done || by repeat constructor)|]);
      (split; [intros [Hin|[? ?]]; [|done];
               first [ by repeat constructor
                     | by repeat (apply elem_of_cons in Hin as [?|Hin];
                                  [done|]);
                          apply elem_of_nil in Hin ]|]);
      intros c Hin; simpl in Hin;
      repeat (apply elem_of_cons in Hin as [?|Hin]; [done|]);
      by apply elem_of_nil in Hin.
Qed.

End RunQueryFacts.

(** Reads the events [delta] off a hypothesis [continues s s' delta] once
    the trace of [s'] is known. *)
Ltac invert_delta H :=
  unfold continues in H; simpl in H; rewrite <- ?app_assoc in H;
  first [ apply app_inv_head in H
        | rewrite <- (app_nil_r (trace _)) in H at 1;
          apply app_inv_head in H ];
  simpl in H; subst.

Section MoreExecution.

Context {Σ Rules Flags Program : Type}.
Context (ext : External Σ Rules Flags Program).

(** X6. The embedded ways through [RunQuery] ([sqlite], [duckdb], and
    [psql] with a connection string) spawn no child process and write to
    none. *)
Theorem RunQuery_embedded_spawns_no_process (sql : string)
    (settings : option (gmap string PyVal)) (output_format engine : string)
    (s : State Σ) (delta : list Event) :
  engine = "sqlite" ∨ engine = "duckdb"
  ∨ (engine = "psql"
     ∧ truthy_string (environ s !! "LOGICA_PSQL_CONNECTION") ≠ None) →
  continues s (snd (RunQuery ext sql settings output_format engine s)) delta →
  Forall (λ ev, process_event ev = false) delta.
Proof.
  intros Hengine Hdelta.
  destruct (RunQuery_events ext sql settings output_format engine s)
    as (delta' & Hdelta' & Hprocess & _).
  unfold continues in *. rewrite Hdelta' in Hdelta.
  apply app_inv_head in Hdelta as <-. by apply Hprocess.
Qed.

(** X7. The ways through [RunQuery] that go through a child process
    ([bigquery], [trino], [presto], and [psql] without a connection string)
    open no database connection in the process itself. *)
Theorem RunQuery_process_opens_no_connection (sql : string)
    (settings : option (gmap string PyVal)) (output_format engine : string)
    (s : State Σ) (delta : list Event) :
  engine ∈ ["bigquery"; "trino"; "presto"]
  ∨ (engine = "psql"
     ∧ truthy_string (environ s !! "LOGICA_PSQL_CONNECTION") = None) →
  continues s (snd (RunQuery ext sql settings output_format engine s)) delta →
  Forall (λ ev, connect_event ev = false) delta.
Proof.
  intros Hengine Hdelta.
  destruct (RunQuery_events ext sql settings output_format engine s)
    as (delta' & Hdelta' & _ & Hconnect & _).
  unfold continues in *. rewrite Hdelta' in Hdelta.
  apply app_inv_head in Hdelta as <-. by apply Hconnect.
Qed.

(** X8. [RunQuery] connects the clingo extension only on [duckdb], and only
    when the settings hold a truthy value under [clingo]. *)
Theorem RunQuery_clingo_only_on_request (sql : string)
    (settings : option (gmap string PyVal)) (output_format engine : string)
    (s : State Σ) (delta : list Event) (connection : Conn) :
  continues s (snd (RunQuery ext sql settings output_format engine s)) delta →
  EvConnectClingo connection ∈ delta →
  engine = "duckdb"
  ∧ from_option truthy false (default ∅ settings !! "clingo") = true.
Proof.
  intros Hdelta Hin.
  destruct (RunQuery_events ext sql settings output_format engine s)
    as (delta' & Hdelta' & _ & _ & Hclingo).
  unfold continues in *. rewrite Hdelta' in Hdelta.
  apply app_inv_head in Hdelta as <-. by apply (Hclingo connection).
Qed.


(** X10. A script that is one statement without a semicolon after it, the
    empty script among them, makes [RunQueryPandas] on [sqlite] raise
    [IndexError]: no statement is left once the last segment is dropped, and
    nothing is executed. *)
Theorem RunQueryPandas_sqlite_no_semicolon (sql : string) (connection : Conn)
    (s : State Σ) :
  Splitter.statement sql = true →
  RunQueryPandas ext sql "sqlite" (Some connection) s = (Raised IndexError, s).
Proof.
  intros [Hsql _]%andb_true_iff.
  rewrite RunQueryPandas_connected. decide_engine.
  unfold run_sqlite_script, Splitter.SplitRaw.
  rewrite (SplitterFacts.split_from_no_delimiter _ _ Hsql).
  reflexivity.
Qed.

(** X11. Given a connection, [RunQueryPandas] opens none, whatever the
    engine. *)
Theorem RunQueryPandas_connected_opens_no_connection (sql engine : string)
    (connection : Conn) (s : State Σ) (delta : list Event) :
  continues s (snd (RunQueryPandas ext sql engine (Some connection) s)) delta →
  Forall (λ ev, connect_event ev = false) delta.
Proof.
  rewrite RunQueryPandas_connected.
  repeat case_bool_decide; subst; unfold run_sqlite_script; unfold_M;
    try destruct (bool_decide (1 < _));
    try destruct (last _);
    simpl; run_extern; intros Hdelta; invert_delta Hdelta;
    by repeat constructor.
Qed.

End MoreExecution.

(** ** Further properties of the compile functions *)

Section Pipeline.

Context {Σ Rules Flags Program : Type}.
Context (ext : External Σ Rules Flags Program).

(** X13. A file that cannot be read makes [ParseOrExit] and
    [GetProgramOrExit] raise the error of the read as it is: nothing is
    parsed, no diagnostic is shown and the process does not exit. *)
Theorem GetProgramOrExit_unreadable_file (filename : string)
    (user_flags : option Flags) (import_root : option string) (e : PyExn)
    (s s' : State Σ) :
  extern (EvOpen filename) (ext_read ext filename) s = (Raised e, s') →
  ParseOrExit ext filename import_root s = (Raised e, s')
  ∧ GetProgramOrExit ext filename user_flags import_root s = (Raised e, s').
Proof.
  intros Hread.
  unfold GetProgramOrExit, ParseOrExit, mbind, M_bind.
  rewrite Hread. done.
Qed.

(** X14. [GetProgramOrExit] handles rule-compile and functor failures of the
    program construction only: any other exception of it, a type error among
    them, reaches the caller as it is, with no diagnostic and no exit. *)
Theorem GetProgramOrExit_unhandled (filename : string)
    (user_flags : option Flags) (import_root : option string) (e : PyExn)
    (rules : Rules) (s s1 s' : State Σ) :
  ParseOrExit ext filename import_root s = (Returned rules, s1) →
  extern EvLogicaProgram (ext_LogicaProgram ext rules user_flags) s1
  = (Raised e, s') →
  (∀ message, e ≠ RuleCompileException message) →
  (∀ message, e ≠ FunctorError message) →
  GetProgramOrExit ext filename user_flags import_root s = (Raised e, s').
Proof.
  intros Hparse Hbuild Hrule Hfunctor.
  unfold GetProgramOrExit, mbind, M_bind, try_except.
  rewrite Hparse, Hbuild.
  destruct e; try reflexivity; [by destruct (Hrule message)
                               | by destruct (Hfunctor message)].
Qed.

(** X15. [RunPredicate] and [RunPredicateToPandas] handle no failure of the
    SQL formatting: whatever [FormattedPredicateSql] raises, a compile-stage
    failure included, reaches the caller as it is, and no query is run. *)
Theorem RunPredicate_formatting_failure_escapes
    (filename predicate output_format : string) (user_flags : option Flags)
    (import_root : option string) (connection : option Conn) (p : Program)
    (e : PyExn) (s s1 s2 : State Σ) :
  GetProgramOrExit ext filename user_flags import_root s = (Returned p, s1) →
  extern (EvFormattedPredicateSql predicate)
         (ext_FormattedPredicateSql ext p predicate) s1 = (Raised e, s2) →
  RunPredicate ext filename predicate output_format user_flags import_root s
  = (Raised e, s2)
  ∧ RunPredicateToPandas ext filename predicate user_flags import_root
                         connection s
    = (Raised e, s2).
Proof.
  intros Hprogram Hsql.
  unfold RunPredicate, RunPredicateToPandas, mbind, M_bind.
  rewrite Hprogram, Hsql. done.
Qed.

(** X16. Without a connection, [RunPredicateToPandas] on a program whose
    engine is neither [sqlite] nor [duckdb] compiles the program and formats
    the SQL first, and then fails with the missing-connection assertion. *)
Theorem RunPredicateToPandas_missing_connection
    (filename predicate : string) (user_flags : option Flags)
    (import_root : option string) (p : Program) (sql : string)
    (s s1 s2 : State Σ) :
  GetProgramOrExit ext filename user_flags import_root s = (Returned p, s1) →
  extern (EvFormattedPredicateSql predicate)
         (ext_FormattedPredicateSql ext p predicate) s1 = (Returned sql, s2) →
  Engine (ext_annotations ext p) ∉ ["sqlite"; "duckdb"] →
  RunPredicateToPandas ext filename predicate user_flags import_root None s
  = (Raised (AssertionError
       "Connection is required for engines other than SQLite."), s2).
Proof.
  intros Hprogram Hsql Hengine.
  repeat (apply not_elem_of_cons in Hengine as [? Hengine]).
  unfold RunPredicateToPandas, mbind, M_bind.
  rewrite Hprogram, Hsql.
  by apply RunQueryPandas_no_connection.
Qed.

(** X17. An exception of the compiler that is no compile-stage failure
    passes through [CompilePredicateFromString] as it is: no diagnostic is
    shown and the process does not exit. *)
Theorem CompilePredicateFromString_passes_other_exceptions
    (logica_string predicate_name : string) (user_flags : option Flags)
    (e : PyExn) (s s' : State Σ) :
  compile_failure e = false →
  parse_stage ext logica_string s = (Raised e, s')
  ∨ (∃ rules s1,
       parse_stage ext logica_string s = (Returned rules, s1)
       ∧ build_stage ext rules predicate_name user_flags s1 = (Raised e, s')) →
  CompilePredicateFromString ext logica_string predicate_name user_flags s
  = (Raised e, s').
Proof.
  intros Hkind Hfail.
  unfold CompilePredicateFromString, mbind, M_bind, try_except.
  destruct Hfail as [Hparse|(rules & s1 & Hparse & Hbuild)].
  - rewrite Hparse. by destruct e.
  - rewrite Hparse, Hbuild. by destruct e.
Qed.

(** X18. No [ParsingException] leaves [CompilePredicateFromString]: both
    the parse and the build of the program have a handler for it. *)
Theorem CompilePredicateFromString_never_raises_ParsingException
    (logica_string predicate_name : string) (user_flags : option Flags)
    (message : string) (s : State Σ) :
  fst (CompilePredicateFromString ext logica_string predicate_name
                                  user_flags s)
  ≠ Raised (ParsingException message).
Proof.
  unfold CompilePredicateFromString, parse_stage, build_stage. unfold_M.
  run_extern; try discriminate;
    match goal with e : PyExn |- _ => destruct e; simpl; discriminate end.
Qed.

(** X19. When [CompilePredicateFromString] returns, the parser, the program
    construction and the SQL formatting were called once each, in this order,
    and all returned; nothing else was called, no diagnostic shown; the
    engine returned is the engine of the annotations of the program. *)
Theorem CompilePredicateFromString_returns
    (logica_string predicate_name : string) (user_flags : option Flags)
    (sql engine : string) (s s' : State Σ) :
  CompilePredicateFromString ext logica_string predicate_name user_flags s
  = (Returned (sql, engine), s') →
  ∃ rules program w1 w2 w3,
    ext_ParseFile ext logica_string None (world s) = (Returned rules, w1)
    ∧ ext_LogicaProgram ext rules user_flags w1 = (Returned program, w2)
    ∧ ext_FormattedPredicateSql ext program predicate_name w2
      = (Returned sql, w3)
    ∧ engine = Engine (ext_annotations ext program)
    ∧ s' = {| world := w3; environ := environ s;
              trace := trace s ++ [EvParseFile logica_string None;
                                   EvLogicaProgram;
                                   EvFormattedPredicateSql predicate_name] |}.
Proof.
  unfold CompilePredicateFromString, parse_stage, build_stage. unfold_M.
  destruct (ext_ParseFile ext logica_string None (world s))
    as [[rules|e|n] w1] eqn:Hparse; simpl;
    [|destruct e; simpl; discriminate|discriminate].
  destruct (ext_LogicaProgram ext rules user_flags w1)
    as [[program|e|n] w2] eqn:Hprogram; simpl;
    [|destruct e; simpl; discriminate|discriminate].
  destruct (ext_FormattedPredicateSql ext program predicate_name w2)
    as [[sql'|e|n] w3] eqn:Hsql; simpl;
    [|destruct e; simpl; discriminate|discriminate].
  intros [= <- <- <-].
  exists rules, program, w1, w2, w3.
  rewrite <- !app_assoc. done.
Qed.

(** X20. [RunPredicateFromString] hands the SQL to the receiver before it
    runs the query: when the compilation returns and the query then fails
    for want of a connection, the receiver holds the SQL all the same. *)
Theorem RunPredicateFromString_receiver_before_execution
    (logica_string predicate_name : string) (user_flags : option Flags)
    (receiver : SqlReceiver) (sql engine : string) (s s1 : State Σ) :
  CompilePredicateFromString ext logica_string predicate_name user_flags s
  = (Returned (sql, engine), s1) →
  engine ∉ ["sqlite"; "duckdb"] →
  RunPredicateFromString ext logica_string predicate_name None user_flags
                         (Some receiver) s
  = (Raised (AssertionError
       "Connection is required for engines other than SQLite."), s1,
     Some {| receiver_sql := Some sql |}).
Proof.
  intros Hcompile Hengine.
  repeat (apply not_elem_of_cons in Hengine as [? Hengine]).
  unfold RunPredicateFromString. rewrite Hcompile.
  by rewrite RunQueryPandas_no_connection.
Qed.

(** X21. On a compile-stage failure, [RunPredicateFromString] shows the
    diagnostic and ends the process with status 1: no query is run and the
    receiver is left as it was. *)
Theorem RunPredicateFromString_compile_failure
    (logica_string predicate_name : string) (connection : option Conn)
    (user_flags : option Flags) (receiver : option SqlReceiver) (e : PyExn)
    (s s' : State Σ) :
  compile_failure e = true →
  ((∃ message, e = ParsingException message)
   ∧ parse_stage ext logica_string s = (Raised e, s'))
  ∨ (∃ rules s1,
       parse_stage ext logica_string s = (Returned rules, s1)
       ∧ build_stage ext rules predicate_name user_flags s1 = (Raised e, s')) →
  RunPredicateFromString ext logica_string predicate_name connection
                         user_flags receiver s
  = (Exited 1,
     {| world := world s'; environ := environ s';
        trace := trace s' ++ [EvShowMessage e] |},
     receiver).
Proof.
  intros Hkind Hfail.
  unfold RunPredicateFromString, CompilePredicateFromString, mbind, M_bind,
    try_except.
  destruct Hfail as [[[m ->] Hparse]|(rules & s1 & Hparse & Hbuild)].
  - rewrite Hparse. reflexivity.
  - rewrite Hparse, Hbuild. destruct e; try discriminate; reflexivity.
Qed.

End Pipeline.

(** ** The further properties at concrete inputs *)

Module MoreInstances.

Lemma RunQuery_output_format_only_bigquery_witness :
  "trino" ≠ "bigquery"
  ∧ RunQuery Demo.ext "SELECT 1;" None "pretty" "trino" Demo.start
    = RunQuery Demo.ext "SELECT 1;" None "csv" "trino" Demo.start.
Proof.
  split; [discriminate|].
  apply (RunQuery_output_format_only_bigquery
           Demo.ext "SELECT 1;" None "pretty" "csv" "trino" Demo.start).
  discriminate.
Defined.

Lemma RunQuery_settings_only_trino_presto_duckdb_witness :
  ("psql" ∉ ["trino"; "presto"; "duckdb"])
  ∧ RunQuery Demo.ext "SELECT 1;" None "pretty" "psql" Demo.start
    = RunQuery Demo.ext "SELECT 1;" (Some {[ "catalog" := VStr "hive" ]})
               "pretty" "psql" Demo.start.
Proof.
  split; [Instances.not_listed|].
  apply (RunQuery_settings_only_trino_presto_duckdb
           Demo.ext "SELECT 1;" None (Some {[ "catalog" := VStr "hive" ]})
           "pretty" "psql" Demo.start).
  Instances.not_listed.
Defined.

Lemma RunQuery_psql_empty_connection_string_witness :
  environ Scenario.blank !! "LOGICA_PSQL_CONNECTION" = Some EmptyString
  ∧ RunQuery Scenario.ext "SELECT 1;" None "pretty" "psql" Scenario.blank
    = (Returned "output of SELECT 1;",
       {| world := tt; environ := environ Scenario.blank;
          trace := [EvPopen ["psql"; "--quiet"];
                    EvCommunicate 0 "SELECT 1;"] |}).
Proof.
  split; [reflexivity|].
  rewrite (RunQuery_psql_empty_connection_string
             Scenario.ext "SELECT 1;" None "pretty" Scenario.blank eq_refl).
  reflexivity.
Defined.

Lemma RunQuery_psql_native_witness :
  (environ Scenario.configured !! "LOGICA_PSQL_CONNECTION"
   = Some "dbname=logica"
   ∧ "dbname=logica" ≠ EmptyString)
  ∧ RunQuery Scenario.ext "SELECT 1;" None "pretty" "psql"
             Scenario.configured
    = (Returned "table",
       {| world := tt; environ := environ Scenario.configured;
          trace := [EvPsycopgConnect "dbname=logica";
                    EvPostgresExecute "SELECT 1;" 1] |}).
Proof.
  split; [split; [reflexivity | discriminate]|].
  rewrite (RunQuery_psql_native Scenario.ext "SELECT 1;" None "pretty"
             "dbname=logica" Scenario.configured eq_refl);
    [reflexivity | discriminate].
Defined.

Lemma RunQuery_embedded_spawns_no_process_witness :
  let delta := [EvPsycopgConnect "dbname=logica";
                EvPostgresExecute "SELECT 1;" 1] in
  (truthy_string (environ Scenario.configured !! "LOGICA_PSQL_CONNECTION")
   ≠ None
   ∧ continues Scenario.configured
       (snd (RunQuery Scenario.ext "SELECT 1;" None "pretty" "psql"
                      Scenario.configured)) delta)
  ∧ Forall (λ ev, process_event ev = false) delta.
Proof.
  intros delta.
  assert (truthy_string
            (environ Scenario.configured !! "LOGICA_PSQL_CONNECTION") ≠ None)
    as Hset by discriminate.
  split; [split; [exact Hset | reflexivity]|].
  apply (RunQuery_embedded_spawns_no_process Scenario.ext "SELECT 1;" None
           "pretty" "psql" Scenario.configured delta);
    [right; right; split; [reflexivity | exact Hset] | reflexivity].
Defined.

Lemma RunQuery_process_opens_no_connection_witness :
  let delta := [EvPopen ["trino"; "--catalog=memory";
                         "--server=http://localhost:8080";
                         "--output-format=ALIGNED"];
                EvCommunicate 0 "SELECT 1;"] in
  (("trino" ∈ ["bigquery"; "trino"; "presto"])
   ∧ continues Demo.start
       (snd (RunQuery Demo.ext "SELECT 1;" None "pretty" "trino" Demo.start))
       delta)
  ∧ Forall (λ ev, connect_event ev = false) delta.
Proof.
  intros delta.
  assert ("trino" ∈ ["bigquery"; "trino"; "presto"]) as Hengine
    by (apply elem_of_cons; right; apply elem_of_cons; by left).
  split; [split; [exact Hengine | reflexivity]|].
  apply (RunQuery_process_opens_no_connection Demo.ext "SELECT 1;" None
           "pretty" "trino" Demo.start delta);
    [left; exact Hengine | reflexivity].
Defined.

Lemma RunQuery_clingo_only_on_request_witness :
  let settings : gmap string PyVal := {[ "clingo" := VBool true ]} in
  let delta := [EvDuckdbConnect; EvConnectClingo 2;
                EvDuckdbSql 2 "SELECT 1;"] in
  (continues Demo.start
     (snd (RunQuery Demo.ext "SELECT 1;" (Some settings) "pretty" "duckdb"
                    Demo.start)) delta
   ∧ EvConnectClingo 2 ∈ delta)
  ∧ "duckdb" = "duckdb"
  ∧ from_option truthy false (settings !! "clingo") = true.
Proof.
  intros settings delta.
  assert (EvConnectClingo 2 ∈ delta) as Hin
    by (apply elem_of_cons; right; apply elem_of_cons; by left).
  split; [split; [reflexivity | exact Hin]|].
  apply (RunQuery_clingo_only_on_request Demo.ext "SELECT 1;" (Some settings)
           "pretty" "duckdb" Demo.start delta 2); [reflexivity | exact Hin].
Defined.


Lemma RunQueryPandas_sqlite_no_semicolon_witness :
  Splitter.statement "SELECT 1" = true
  ∧ RunQueryPandas Demo.ext "SELECT 1" "sqlite" (Some 7) Demo.start
    = (Raised IndexError, Demo.start).
Proof.
  split; [reflexivity|].
  apply (RunQueryPandas_sqlite_no_semicolon Demo.ext "SELECT 1" 7 Demo.start).
  reflexivity.
Defined.

Lemma RunQueryPandas_connected_opens_no_connection_witness :
  let delta := [EvExecuteScript 7 "CREATE TABLE t(x) AS VALUES (1)";
                EvReadSql " SELECT * FROM t" 7] in
  continues Demo.start
    (snd (RunQueryPandas Demo.ext
            "CREATE TABLE t(x) AS VALUES (1); SELECT * FROM t;" "sqlite"
            (Some 7) Demo.start)) delta
  ∧ Forall (λ ev, connect_event ev = false) delta.
Proof.
  intros delta. split; [reflexivity|].
  apply (RunQueryPandas_connected_opens_no_connection Demo.ext
           "CREATE TABLE t(x) AS VALUES (1); SELECT * FROM t;" "sqlite" 7
           Demo.start delta).
  reflexivity.
Defined.

End MoreInstances.

Module PipelineInstances.
Import Scenario.

(** The state of a fresh process after the calls [events]. *)
Local Abbreviation after events :=
  {| world := tt; environ := ∅; trace := events |}.

Lemma GetProgramOrExit_failure_witness :
  let e := RuleCompileException "unknown variable" in
  (extern (EvOpen "rule error") (ext_read ext "rule error") Demo.start
   = (Returned "rule error", after [EvOpen "rule error"])
   ∧ extern (EvParseFile "rule error" None)
            (ext_ParseFile ext "rule error" None)
            (after [EvOpen "rule error"])
     = (Returned "rule error",
        after [EvOpen "rule error"; EvParseFile "rule error" None])
   ∧ extern EvLogicaProgram (ext_LogicaProgram ext "rule error" None)
            (after [EvOpen "rule error"; EvParseFile "rule error" None])
     = (Raised e,
        after [EvOpen "rule error"; EvParseFile "rule error" None;
               EvLogicaProgram]))
  ∧ GetProgramOrExit ext "rule error" None None Demo.start
    = (Exited 1,
       after [EvOpen "rule error"; EvParseFile "rule error" None;
              EvLogicaProgram; EvShowMessage e]).
Proof.
  intros e. split; [split; [reflexivity | split; reflexivity]|].
  apply (GetProgramOrExit_failure ext "rule error" None None e "rule error"
           Demo.start (after [EvOpen "rule error"])
           (after [EvOpen "rule error"; EvParseFile "rule error" None;
                   EvLogicaProgram]) eq_refl).
  right. split; [left; by eexists|].
  exists "rule error",
    (after [EvOpen "rule error"; EvParseFile "rule error" None]).
  split; reflexivity.
Defined.

Lemma GetProgramOrExit_unreadable_file_witness :
  let e := ExternalError "No such file or directory" in
  extern (EvOpen "missing.l") (ext_read ext "missing.l") Demo.start
  = (Raised e, after [EvOpen "missing.l"])
  ∧ ParseOrExit ext "missing.l" None Demo.start
    = (Raised e, after [EvOpen "missing.l"])
  ∧ GetProgramOrExit ext "missing.l" None None Demo.start
    = (Raised e, after [EvOpen "missing.l"]).
Proof.
  intros e. split; [reflexivity|].
  apply (GetProgramOrExit_unreadable_file ext "missing.l" None None e
           Demo.start (after [EvOpen "missing.l"])).
  reflexivity.
Defined.

Lemma GetProgramOrExit_unhandled_witness :
  let e := TypeErrorCaughtException "Num is not Str" in
  let s1 := after [EvOpen "type error"; EvParseFile "type error" None] in
  let s' := after [EvOpen "type error"; EvParseFile "type error" None;
                   EvLogicaProgram] in
  (ParseOrExit ext "type error" None Demo.start = (Returned "type error", s1)
   ∧ extern EvLogicaProgram (ext_LogicaProgram ext "type error" None) s1
     = (Raised e, s')
   ∧ (∀ message, e ≠ RuleCompileException message)
   ∧ (∀ message, e ≠ FunctorError message))
  ∧ GetProgramOrExit ext "type error" None None Demo.start = (Raised e, s').
Proof.
  intros e s1 s'.
  split; [split; [reflexivity | split; [reflexivity | split; discriminate]]|].
  apply (GetProgramOrExit_unhandled ext "type error" None None e "type error"
           Demo.start s1 s'); (reflexivity || discriminate).
Defined.

Lemma RunPredicate_formatting_failure_escapes_witness :
  let e := TypeErrorCaughtException "Num is not Str" in
  let s1 := after [EvOpen "plain program"; EvParseFile "plain program" None;
                   EvLogicaProgram] in
  let s2 := after [EvOpen "plain program"; EvParseFile "plain program" None;
                   EvLogicaProgram; EvFormattedPredicateSql "Ill"] in
  (GetProgramOrExit ext "plain program" None None Demo.start
   = (Returned "plain program", s1)
   ∧ extern (EvFormattedPredicateSql "Ill")
            (ext_FormattedPredicateSql ext "plain program" "Ill") s1
     = (Raised e, s2))
  ∧ RunPredicate ext "plain program" "Ill" "pretty" None None Demo.start
    = (Raised e, s2)
  ∧ RunPredicateToPandas ext "plain program" "Ill" None None (Some 7)
                         Demo.start
    = (Raised e, s2).
Proof.
  intros e s1 s2. split; [split; reflexivity|].
  apply (RunPredicate_formatting_failure_escapes ext "plain program" "Ill"
           "pretty" None None (Some 7) "plain program" e Demo.start s1 s2);
    reflexivity.
Defined.

Lemma RunPredicateToPandas_missing_connection_witness :
  let s1 := after [EvOpen "psql program"; EvParseFile "psql program" None;
                   EvLogicaProgram] in
  let s2 := after [EvOpen "psql program"; EvParseFile "psql program" None;
                   EvLogicaProgram; EvFormattedPredicateSql "P"] in
  (GetProgramOrExit ext "psql program" None None Demo.start
   = (Returned "psql program", s1)
   ∧ extern (EvFormattedPredicateSql "P")
            (ext_FormattedPredicateSql ext "psql program" "P") s1
     = (Returned "SELECT * FROM P;", s2)
   ∧ Engine (ext_annotations ext "psql program") ∉ ["sqlite"; "duckdb"])
  ∧ RunPredicateToPandas ext "psql program" "P" None None None Demo.start
    = (Raised (AssertionError
         "Connection is required for engines other than SQLite."), s2).
Proof.
  intros s1 s2.
  assert (Engine (ext_annotations ext "psql program")
          ∉ ["sqlite"; "duckdb"]) as Hengine.
  { change (Engine (ext_annotations ext "psql program")) with "psql".
    Instances.not_listed. }
  split; [split; [reflexivity | split; [reflexivity | exact Hengine]]|].
  apply (RunPredicateToPandas_missing_connection ext "psql program" "P" None
           None "psql program" "SELECT * FROM P;" Demo.start s1 s2);
    (reflexivity || exact Hengine).
Defined.

Lemma CompilePredicateFromString_passes_other_exceptions_witness :
  let e := ExternalError "KeyError: Nope" in
  let s1 := after [EvParseFile "plain program" None] in
  let s' := after [EvParseFile "plain program" None; EvLogicaProgram;
                   EvFormattedPredicateSql "Nope"] in
  (compile_failure e = false
   ∧ parse_stage ext "plain program" Demo.start
     = (Returned "plain program", s1)
   ∧ build_stage ext "plain program" "Nope" None s1 = (Raised e, s'))
  ∧ CompilePredicateFromString ext "plain program" "Nope" None Demo.start
    = (Raised e, s').
Proof.
  intros e s1 s'.
  split; [split; [reflexivity | split; reflexivity]|].
  apply (CompilePredicateFromString_passes_other_exceptions ext
           "plain program" "Nope" None e Demo.start s' eq_refl).
  right. exists "plain program", s1. split; reflexivity.
Defined.

Lemma CompilePredicateFromString_returns_witness :
  let s' := after [EvParseFile "sqlite program" None; EvLogicaProgram;
                   EvFormattedPredicateSql "P"] in
  CompilePredicateFromString ext "sqlite program" "P" None Demo.start
  = (Returned ("SELECT * FROM P;", "sqlite"), s')
  ∧ ∃ rules program w1 w2 w3,
      ext_ParseFile ext "sqlite program" None (world Demo.start)
      = (Returned rules, w1)
      ∧ ext_LogicaProgram ext rules None w1 = (Returned program, w2)
      ∧ ext_FormattedPredicateSql ext program "P" w2
        = (Returned "SELECT * FROM P;", w3)
      ∧ "sqlite" = Engine (ext_annotations ext program)
      ∧ s' = {| world := w3; environ := environ Demo.start;
                trace := trace Demo.start
                         ++ [EvParseFile "sqlite program" None;
                             EvLogicaProgram;
                             EvFormattedPredicateSql "P"] |}.
Proof.
  intros s'. split; [reflexivity|].
  apply (CompilePredicateFromString_returns ext "sqlite program" "P" None
           "SELECT * FROM P;" "sqlite" Demo.start s').
  reflexivity.
Defined.

Lemma RunPredicateFromString_receiver_before_execution_witness :
  let s1 := after [EvParseFile "psql program" None; EvLogicaProgram;
                   EvFormattedPredicateSql "P"] in
  (CompilePredicateFromString ext "psql program" "P" None Demo.start
   = (Returned ("SELECT * FROM P;", "psql"), s1)
   ∧ "psql" ∉ ["sqlite"; "duckdb"])
  ∧ RunPredicateFromString ext "psql program" "P" None None
                           (Some SqlReceiver_init) Demo.start
    = (Raised (AssertionError
         "Connection is required for engines other than SQLite."), s1,
       Some {| receiver_sql := Some "SELECT * FROM P;" |}).
Proof.
  intros s1.
  split; [split; [reflexivity | Instances.not_listed]|].
  apply (RunPredicateFromString_receiver_before_execution ext "psql program"
           "P" None SqlReceiver_init "SELECT * FROM P;" "psql" Demo.start s1);
    [reflexivity | Instances.not_listed].
Defined.

Lemma RunPredicateFromString_compile_failure_witness :
  let e := ParsingException "unbalanced parenthesis" in
  (compile_failure e = true
   ∧ parse_stage ext "P(x" Demo.start
     = (Raised e, after [EvParseFile "P(x" None]))
  ∧ RunPredicateFromString ext "P(x" "P" (Some 7) None
                           (Some SqlReceiver_init) Demo.start
    = (Exited 1, after [EvParseFile "P(x" None; EvShowMessage e],
       Some SqlReceiver_init).
Proof.
  intros e. split; [split; reflexivity|].
  apply (RunPredicateFromString_compile_failure ext "P(x" "P" (Some 7) None
           (Some SqlReceiver_init) e Demo.start
           (after [EvParseFile "P(x" None]) eq_refl).
  left. split; [by eexists | reflexivity].
Defined.

End PipelineInstances.
